(* ===== verification/_CoqProject ===== *)
-Q . S2P
Prelude.v
GoStrings.v
GoJson.v
Utf8.v
HttpWriter.v
SqlDb.v
WebHandler.v
Tables.v
Compose.v
Executor.v
Handler.v
Effects.v
Response.v
Invariant.v
Routing.v
Spec.v
Server.v
Main.v
Service.v
Connection.v
Witnesses.v
