(* ===== verification/Prelude.v ===== *)
(** * A verification development for jrymal/GoLangRestApi

    The program (src/src/WebService.go, one file) is an HTTP-to-SQL
    bridge: [handleAllRoutes] builds a [WebHandler] per request and calls
    [Execute], which splits the URL path, checks it, and calls
    [parseRequest]; that opens a [*sql.DB], defers its [Close], and
    dispatches on the method to [handleGet], [handlePost], [handlePut] or
    [handleDelete].  Each composes a SQL string (with [lookUpTableIdColumn]
    and the [generate*] loops) and calls [executeQuery], which runs it,
    reads the result's column names, compares their number with what
    [getTableColumnNames] returns and stores a 200 body.  Errors are
    raised by [fireErrResponse], which stores a code and an error body
    and panics; a deferred [recover] in [Execute] then sends the
    response, as the normal path does, with [sendResponse].

    ** Files, in dependency order
    - [Prelude] (this file): the panic monad [GoM S A = S -> S * outcome A]
      for Go's panic/defer/recover ([go_bind], [go_throw], [go_defer],
      [go_recover], [go_index] for slice indexing), its notation
      ([let! x := m in k], [m ;;; k], [≃] in [go_scope]), the
      equivalence [go_eq] with [Proper] instances for setoid rewriting,
      the frame combinator [preserves], byte strings, hint databases
      [go_run] (rewriting) and [go_hints].
    - [GoStrings]: Go runtime [strings.Split] (one-byte separator) and
      [string(int)] = UTF-8 [encoderune]/[intstring] on [Z] with
      [Z.land]/[Z.lor]/[Z.shiftr].
    - [GoJson]: [go_value] (the dynamic values stored in the handler's
      [interface{}] body), [reflect.StructTag.Lookup] and the field names
      encoding/json takes from struct tags, encoding/json [marshal] with
      [appendString]'s escaping and [utf8.DecodeRune]; the fuel of both
      loops is enough.
    - [Utf8]: the bytes of [string(v)]: one to four bytes, the UTF-8
      encoding of a valid code point, U+FFFD otherwise.
    - [HttpWriter]: the [ResponseWriter] class the handler writes to,
      its contract [ResponseWriterLaws] (headers changed after the first
      [Write] are not sent) and a model of net/http's [response].
    - [SqlDb]: the [SqlDb] class (results of [sql.Open] for a driver and
      data source name, [Query], [Columns]), the trace events [db_event], the law [SqlLaws] and the
      [EmployeesDb] instance.
    - [WebHandler]: the constants (with [DB_AUTH]), the [err_response]
      struct, its tag and its [interface{}] value, [WebHandler], the request
      state [ReqState] (handler fields + database trace),
      [fireErrResponse], [setResponse], [sendResponse],
      [mandatoryPathLength], and the database calls [sql_Open],
      [db_Query], [db_Close].
    - [Tables]: [lookUpTableIdColumn], its specification [tableIdColumn],
      [getTableColumnNames] and [columnsQuery].
    - [Compose]: [queryParam], [db_request], the Go map iteration order
      [MapIter] with [MapIterLaws], [generateQueryItems],
      [generateComparisons], [generateValuePairs].
    - [Executor]: [executeQuery], its loop [fill_body], [decodeJson].
    - [Handler]: the four handlers, [dispatch], [parseRequest],
      [processRequest], [Execute], [handleAllRoutes].
    - [Effects]: a frame lemma: any preorder respected by the three state
      updates of processing (an error with 400 or 500, a 200 success, a
      statement in the trace) is respected by [processRequest].
    - [Response], [Invariant], [Routing], [Connection]: the theorems on
      what the client receives, on the handler's state invariant, on each
      kind of request, and on the connection and the statements sent.
    - [Spec]: [Spec.route], the routing decision as a pure function of
      the request, and the refinement theorem [processRequest_refines].
    - [Server]: the net/http [ServeMux] that [main] registers on, as the
      Go release of this program had it ([Handle] with its panics and the
      implicit redirect entry, [pathMatch], the longest match,
      [cleanPath] = [path.Clean] plus the trailing slash, the 301, 400
      and 404 answers), [handleAllRoutes_fn] (the handler [main]
      registers) and [root_mux], the mux after line 45.
    - [Main]: [main] (lines 43-47) as an interaction tree (ITree) over
      the events [serverE] (print, listen, accept, respond, crash);
      [http.ListenAndServe] as its listen error or [serve_loop], the
      endless accept-and-answer loop ([ITree.iter]); [answers], the
      coinductive (Paco) property of answering every request.
    - [Service]: the router and the handler composed, as a client sees
      them: [client_view], the contract [expected_view], and the
      refinement [service_refines].
    - [Witnesses]: the theorems at concrete requests, and whole runs
      (among them the injection of SQL through a DELETE id).

    ** What the theorems show
    - [Execute] sends exactly once on every path and never lets a panic
      escape; nothing is written before; Marshal never fails on the
      stored body (the fallback branch is dead); the client always gets
      status line 200, the [Status-Code] header is never sent and would
      hold [string(code)] (UTF-8, not decimal) anyway.
    - Per method: the exact statement GET, DELETE, PUT and POST run, the
      400s (short path, unknown table, bad method, bad body or request
      type), the index panic of PUT/DELETE on a short path (body [null],
      code 0), POST's missing table check.
    - Refinement: [processRequest] behaves exactly as the pure decision
      [Spec.route] run by [Spec.processRequest_spec], on every request,
      state and database.  On a table outside the key mapping no request
      but a POST sends a statement: the trace gains at most the opening
      and closing of the connection
      ([Connection.processRequest_unmapped_no_statement]).
    - Invariant: body and code are always nil/0, a string map/200 or an
      [err_response]/400 or 500, at every step and in the final handler.
    - [executeQuery] succeeds only on one-column results and then returns
      {"COLUMN_NAME": <column name>}: no row data ever reaches a client;
      every multi-column SELECT and every INSERT/UPDATE/DELETE is
      answered 500 after running.  Its copy loop always terminates: it
      returns the map, or panics at the first missing index.
    - The mismatch message is 53 to 59 bytes whatever the counts.
    - The error body marshals to {"Message": ...}: the key comes from the
      tag of line 27 through [reflect.StructTag.Lookup], which finds no
      [json] key because of the space after the colon.
    - A failed [sql.Open] records its 500 but unwinds with the nil
      dereference panic of the [Close] deferred before the check.
    - The connection is opened once, closed once and last, on every exit
      path; the INSERT's columns and values stay paired for every map
      iteration order.
    - Liveness: after its banner and a successful listen, [main] serves
      forever, answering each accepted request with the mux's reply
      before accepting the next ([Main.main_liveness]).
    - Through the mux: ["*"] gets 400, an unclean path a 301, a rooted
      path reaches [handleAllRoutes] and nothing else does; a served path
      always has two pieces, so the first [mandatoryPathLength] check
      cannot fire (POST / reaches the database, unlike spec section 8
      says).
    - End to end: on a fresh connection every request gets exactly the
      view of the service contract [Service.expected_view] (the mux's
      400, 301 or 404, or status 200 with the marshalled body), for every
      writer obeying [ResponseWriterLaws] ([Service.service_refines]).
    - Determinism: a request other than POST and PUT is handled as a
      function of its method and path alone, so the same GET twice sends
      the same statement ([Routing.processRequest_path_determined]); the
      path's text goes into the statement unescaped (SQL injection).

    ** Modelling choices
    - Go [int] codes and lengths are [Z]; [string(int)] checks the
      [int32] range and the valid code points as the runtime does.
    - The database is external: only what [Query]/[Columns] return is
      modelled (the program never reads rows), and the statements sent
      are recorded in order.  [SqlLaws] states the one SQL fact used.
      Its answers are a function of the statement, fixed across the
      requests [main] serves: what one request's statement changes in
      the database is not seen by the next, which no theorem here needs
      (the program never reads rows).
    - The JSON body reader is given as the decoder's result
      ([request_body]); JSON parsing itself is not modelled.
    - Go map iteration order is the class [MapIter]; theorems hold for
      every order satisfying [MapIterLaws].
    - No fuel is needed for the program's own loops, which are
      structural.  The JSON escaping loop of the library model is given
      [length bs] rounds, the loop of [StructTag.Lookup] the tag's length;
      [GoJson.json_escape_fuel] and [GoJson.tag_lookup_fuel] show that every
      larger fuel gives the same result, each round consuming at least
      one byte.
    - Requests are served one after another in [Main]: each gets a fresh
      [WebHandler] and shares nothing but the external database, so the
      server's concurrency is not observable here.  The ITree is
      infinite, and no fuel bounds it: liveness is coinductive.
    - Not modelled: accept errors and connection handling of net/http,
      host patterns and the query part of redirect URLs, the MySQL driver
      and server, JSON decoding, [http.DetectContentType] beyond the
      bodies this program writes, and the hexadecimal, octal and [\u]
      escapes of [strconv.Unquote] (no tag of the program has one). *)

From stdpp Require Export base list gmap strings sorting pretty.
From Stdlib Require Export ZArith Lia Ascii.

(** ** Go panics and the panic monad *)

(** What a Go [panic] carries in this program: [fireErrResponse] panics
    with its message; the runtime panics on an out-of-range slice index
    and on a method call through a nil [*sql.DB]. *)
Inductive go_panic : Type :=
| PanicValue (msg : string)
| PanicIndex (index len : nat)
| PanicNilDeref.

(** The outcome of a Go statement: it returns normally or it is
    unwinding the stack with a panic. *)
Inductive outcome (A : Type) : Type :=
| Returned (a : A)
| Panicking (p : go_panic).
Arguments Returned {A} a.
Arguments Panicking {A} p.

(** State passing with panics: a computation reads the state, returns
    the new state and its outcome.  The state is kept on a panic, as
    Go keeps every write made before the panic. *)
Definition GoM (S A : Type) : Type := S -> S * outcome A.

Section GoMonad.
Context {S : Type}.

Definition go_ret {A} (a : A) : GoM S A := fun s => (s, Returned a).

Definition go_bind {A B} (m : GoM S A) (k : A -> GoM S B) : GoM S B :=
  fun s =>
    match m s with
    | (s', Returned a) => k a s'
    | (s', Panicking p) => (s', Panicking p)
    end.

Definition go_throw {A} (p : go_panic) : GoM S A := fun s => (s, Panicking p).

Definition go_modify (f : S -> S) : GoM S unit := fun s => (f s, Returned tt).

Definition go_gets {A} (f : S -> A) : GoM S A := fun s => (s, Returned (f s)).

(** [defer d] registered before [m]: [d] runs after [m] on every exit
    path; a panic raised by [d] replaces the one [m] raised. *)
Definition go_defer {A} (d : GoM S unit) (m : GoM S A) : GoM S A :=
  fun s =>
    let '(s1, r) := m s in
    let '(s2, rd) := d s1 in
    match rd with
    | Panicking p => (s2, Panicking p)
    | Returned _ => (s2, r)
    end.

(** [defer func() { if r := recover(); r != nil { h } }()] registered
    before [m]: a panic of [m] is stopped and [h] runs instead. *)
Definition go_recover (m : GoM S unit) (h : GoM S unit) : GoM S unit :=
  fun s =>
    match m s with
    | (s1, Returned _) => (s1, Returned tt)
    | (s1, Panicking _) => h s1
    end.

(** The slice index expression [l[i]]: out of range is a runtime panic. *)
Definition go_index {A} (l : list A) (i : nat) : GoM S A :=
  match l !! i with
  | Some x => go_ret x
  | None => go_throw (PanicIndex i (length l))
  end.
End GoMonad.

Declare Scope go_scope.
Delimit Scope go_scope with go.
Notation "'let!' x ':=' m 'in' k" := (go_bind m (fun x => k))
  (at level 10, x name, m at level 100, k at level 200) : go_scope.
Notation "'let!' ' p ':=' m 'in' k" := (go_bind m (fun x => match x with p => k end))
  (at level 10, p pattern, m at level 100, k at level 200) : go_scope.
Notation "m ';;;' k" := (go_bind m (fun _ => k))
  (at level 100, right associativity) : go_scope.

(** ** Monad laws and running lemmas *)

Create Rewrite HintDb go_run.
Create HintDb go_hints.

Section GoMonadLemmas.
Context {S : Type}.

Lemma go_bind_ret {A B} (a : A) (k : A -> GoM S B) s :
  go_bind (go_ret a) k s = k a s.
Proof. reflexivity. Qed.

Lemma go_bind_throw {A B} p (k : A -> GoM S B) s :
  go_bind (go_throw p) k s = (s, Panicking p).
Proof. reflexivity. Qed.

Lemma go_bind_assoc {A B C} (m : GoM S A) (k : A -> GoM S B) (k' : B -> GoM S C) s :
  go_bind (go_bind m k) k' s = go_bind m (fun a => go_bind (k a) k') s.
Proof. unfold go_bind. destruct (m s) as [s' [a|p]]; reflexivity. Qed.

Lemma go_bind_ret_r {A} (m : GoM S A) s : go_bind m go_ret s = m s.
Proof. unfold go_bind. destruct (m s) as [s' [a|p]]; reflexivity. Qed.

Lemma go_bind_modify {B} f (k : unit -> GoM S B) s :
  go_bind (go_modify f) k s = k tt (f s).
Proof. reflexivity. Qed.

Lemma go_index_lookup {A} (l : list A) i x (s : S) :
  l !! i = Some x -> go_index l i s = (s, Returned x).
Proof. intros H. unfold go_index. rewrite H. reflexivity. Qed.

Lemma go_index_oob {A} (l : list A) i (s : S) :
  length l <= i -> go_index l i s = (s, @Panicking A (PanicIndex i (length l))).
Proof. intros H. unfold go_index. rewrite lookup_ge_None_2 by done. reflexivity. Qed.
End GoMonadLemmas.

#[export] Hint Rewrite @go_bind_ret @go_bind_throw @go_bind_assoc @go_bind_modify : go_run.

(** A Go [(T, error)] pair read as a result: the error when non-nil. *)
Inductive go_result (A : Type) : Type :=
| Ok (a : A)
| Err (e : string).
Arguments Ok {A} a.
Arguments Err {A} e.

(** ** Strings as Go byte strings *)

(** A Go [string] is a sequence of bytes; it is modelled by [string],
    whose characters are 8-bit [ascii] values. *)

Definition byte_of_Z (z : Z) : ascii := Ascii.ascii_of_N (Z.to_N (Z.land z 255)).

Definition string_of_bytes (bs : list Z) : string :=
  String.string_of_list_ascii (map byte_of_Z bs).

Definition bytes_of_string (s : string) : list Z :=
  map (fun c => Z.of_N (Ascii.N_of_ascii c)) (String.list_ascii_of_string s).

(** The double quote character, spelled by its code. *)
Definition dquote : string := String "034"%char EmptyString.

Lemma string_app_cons (x : ascii) (a b : string) : String x a +:+ b = String x (a +:+ b).
Proof. reflexivity. Qed.

Lemma string_app_nil_l (a : string) : "" +:+ a = a.
Proof. reflexivity. Qed.

Lemma string_app_assoc (a b c : string) : (a +:+ b) +:+ c = a +:+ (b +:+ c).
Proof. induction a as [|x a IH]; rewrite ?string_app_cons; simpl; [done | by rewrite IH]. Qed.

Lemma string_app_nil_r (a : string) : a +:+ "" = a.
Proof. induction a as [|x a IH]; rewrite ?string_app_cons; simpl; [done | by rewrite IH]. Qed.

Lemma string_app_inv_l (p a b : string) : p +:+ a = p +:+ b -> a = b.
Proof. induction p as [|x p IH]; rewrite ?string_app_cons; [done | intros H; injection H; auto]. Qed.

Lemma string_length_app (a b : string) :
  String.length (a +:+ b) = (String.length a + String.length b)%nat.
Proof. induction a as [|x a IH]; rewrite ?string_app_cons; simpl; [done | by rewrite IH]. Qed.

#[export] Hint Rewrite string_app_cons string_app_nil_l string_app_assoc string_app_nil_r : go_run.

(** Run a [GoM] computation symbolically: unfold the combinators and
    simplify with the rewrite database. *)
Ltac go_unfold :=
  unfold go_bind, go_ret, go_throw, go_modify, go_gets, go_defer, go_recover in *.
Ltac go_run := repeat (progress (go_unfold; cbn -[String.append] in *; autorewrite with go_run in *)).

(** [strings.CutPrefix]: the rest of [s] after the prefix [p], if any. *)
Fixpoint strip_prefix (p s : string) : option string :=
  match p, s with
  | EmptyString, _ => Some s
  | String a p', String b s' => if decide (a = b) then strip_prefix p' s' else None
  | String _ _, EmptyString => None
  end.

Lemma strip_prefix_app p s : strip_prefix p (p +:+ s) = Some s.
Proof. induction p as [|a p IH]; [done|]. rewrite string_app_cons. simpl. by rewrite decide_True. Qed.

Lemma strip_prefix_Some p s r : strip_prefix p s = Some r -> s = p +:+ r.
Proof.
  revert s. induction p as [|a p IH]; intros s H.
  - simpl in H. by simplify_eq.
  - destruct s as [|b s]; [done|]. cbn [strip_prefix] in H.
    destruct (decide (a = b)) as [->|]; [|done].
    rewrite string_app_cons. f_equal. by apply IH.
Qed.

#[export] Hint Rewrite strip_prefix_app : go_run.

(** ** Relations preserved by computations *)

(** [preserves R m]: every run of [m] relates its initial and final
    states by [R] (on every exit path, panics included).  With [R] a
    preorder this composes through [go_bind], which is how frame
    properties (what an operation does not touch) are proved once per
    operation and then for the whole handler. *)
Definition preserves {S A} (R : S -> S -> Prop) (m : GoM S A) : Prop :=
  forall s, R s (fst (m s)).

Section Preserves.
Context {S : Type} (R : S -> S -> Prop) `{!PreOrder R}.

Lemma preserves_ret {A} (a : A) : preserves R (go_ret a).
Proof. intros s. simpl. reflexivity. Qed.

Lemma preserves_throw {A} p : preserves R (@go_throw S A p).
Proof. intros s. simpl. reflexivity. Qed.

Lemma preserves_modify f : (forall s, R s (f s)) -> preserves R (go_modify f).
Proof. intros H s. apply H. Qed.

Lemma preserves_gets {A} (f : S -> A) : preserves R (go_gets f).
Proof. intros s. simpl. reflexivity. Qed.

Lemma preserves_bind {A B} (m : GoM S A) (k : A -> GoM S B) :
  preserves R m -> (forall a, preserves R (k a)) -> preserves R (go_bind m k).
Proof.
  intros Hm Hk s. unfold go_bind. specialize (Hm s).
  destruct (m s) as [s' [a|p]]; simpl in *; [|done].
  etrans; [exact Hm|apply Hk].
Qed.

Lemma preserves_defer {A} (d : GoM S unit) (m : GoM S A) :
  preserves R d -> preserves R m -> preserves R (go_defer d m).
Proof.
  intros Hd Hm s. unfold go_defer. specialize (Hm s).
  destruct (m s) as [s1 r]. specialize (Hd s1). destruct (d s1) as [s2 [u|p]];
    simpl in *; by etrans.
Qed.

Lemma preserves_index {A} (l : list A) i : preserves R (go_index l i).
Proof. unfold go_index. destruct (l !! i); [apply preserves_ret|apply preserves_throw]. Qed.
End Preserves.

#[export] Hint Resolve preserves_ret preserves_throw preserves_gets preserves_bind
  preserves_defer preserves_index : go_hints.

(** ** Equivalence of computations *)

(** Two computations are equivalent when they agree on every state.
    Setoid rewriting with [≃] replaces a sub-computation by an
    equivalent one under the combinators. *)
Definition go_eq {S A} (m1 m2 : GoM S A) : Prop := forall s, m1 s = m2 s.
Infix "≃" := go_eq (at level 70) : go_scope.

Section GoEq.
Context {S : Type}.
Local Open Scope go_scope.

#[export] Instance go_eq_equivalence {A} : Equivalence (@go_eq S A).
Proof. split; repeat intro; congruence. Qed.

#[export] Instance go_bind_proper {A B} :
  Proper (go_eq ==> pointwise_relation A go_eq ==> go_eq) (@go_bind S A B).
Proof.
  intros m1 m2 Hm k1 k2 Hk s. unfold go_bind. rewrite Hm.
  destruct (m2 s) as [s' [a|p]]; [apply Hk|done].
Qed.

#[export] Instance go_defer_proper {A} : Proper (go_eq ==> go_eq ==> go_eq) (@go_defer S A).
Proof. intros d1 d2 Hd m1 m2 Hm s. unfold go_defer. rewrite Hm. destruct (m2 s). by rewrite Hd. Qed.

#[export] Instance go_recover_proper : Proper (go_eq ==> go_eq ==> go_eq) (@go_recover S).
Proof.
  intros m1 m2 Hm h1 h2 Hh s. unfold go_recover. rewrite Hm.
  destruct (m2 s) as [s' [a|p]]; [done|apply Hh].
Qed.

Lemma go_bind_ret_l {A B} (a : A) (k : A -> GoM S B) : go_bind (go_ret a) k ≃ k a.
Proof. intros s. reflexivity. Qed.

Lemma go_bind_throw_l {A B} p (k : A -> GoM S B) : go_bind (go_throw p) k ≃ go_throw p.
Proof. intros s. reflexivity. Qed.
End GoEq.

(** ** Concatenation of strings *)

Definition str_concat (l : list string) : string := foldr String.append ""%string l.

Lemma str_concat_app l1 l2 : str_concat (l1 ++ l2) = str_concat l1 +:+ str_concat l2.
Proof. induction l1 as [|x l1 IH]; simpl; [done|]. by rewrite IH, string_app_assoc. Qed.

(** A loop [acc += f(x)] over [l] appends the concatenation of the [f x]. *)
Lemma foldl_string_append {A} (f : A -> string) (acc : string) (l : list A) :
  foldl (fun acc x => acc +:+ f x) acc l = acc +:+ str_concat (map f l).
Proof.
  revert acc. induction l as [|x l IH]; intros acc; simpl; [by rewrite string_app_nil_r|].
  by rewrite IH, string_app_assoc.
Qed.

