(* ===== verification/GoStrings.v ===== *)
(** * Go runtime string operations used by WebService.go

    - [Split]: [strings.Split(s, sep)] for a one-byte separator, as
      [Execute] calls it on the URL path (WebService.go line 181);
    - [encoderune] and [intstring]: the conversion [string(i)] of an
      integer to a string, which Go defines as the UTF-8 encoding of the
      code point [i] (U+FFFD when [i] is not a valid code point);
      [sendResponse] (line 260) and [executeQuery] (line 72) apply it to
      a status code and to slice lengths.

    Both are library code (the Go runtime), modelled from the Go
    specification and the runtime's [encoderune]; they are not part of
    the repository. *)

From S2P Require Import Prelude.

Local Open Scope Z_scope.

(** ** strings.Split with a one-byte separator *)

Section Split.
Context (sep : ascii).

(** [genSplit(s, sep, 0, -1)]: the pieces of [s] between the
    occurrences of [sep]; the empty string splits into [[""]]. *)
Fixpoint Split (s : string) : list string :=
  match s with
  | EmptyString => [""%string]
  | String c s' =>
      let rest := Split s' in
      if decide (c = sep) then ""%string :: rest
      else match rest with
           | r :: rs => String c r :: rs
           | [] => [String c ""]
           end
  end.

Fixpoint count_sep (s : string) : nat :=
  match s with
  | EmptyString => 0
  | String c s' => (if decide (c = sep) then 1 else 0) + count_sep s'
  end%nat.

Lemma Split_not_nil s : Split s <> [].
Proof.
  destruct s as [|c s]; simpl; [done|].
  case_decide; [done|]. by destruct (Split s).
Qed.

(** [len(strings.Split(s, sep))] is one more than the number of
    separators in [s]. *)
Lemma Split_length s : length (Split s) = S (count_sep s).
Proof.
  induction s as [|c s IH]; simpl; [done|].
  case_decide; simpl; [by rewrite IH|].
  pose proof (Split_not_nil s). destruct (Split s); simpl in *; [done|lia].
Qed.

(** No piece contains the separator. *)
Lemma Split_pieces_sep_free s :
  Forall (fun p => count_sep p = 0%nat) (Split s).
Proof.
  induction s as [|c s IH]; simpl; [by constructor; simpl|].
  case_decide; [by constructor|].
  destruct (Split s) as [|r rs]; [by repeat constructor; simpl; case_decide|].
  apply Forall_cons in IH as [Hr Hrs]. constructor; [|done].
  simpl. by case_decide; [|rewrite Hr].
Qed.

Lemma concat_cons_char (d : string) (c : ascii) (r : string) rs :
  String.concat d (String c r :: rs) = String c (String.concat d (r :: rs)).
Proof. by destruct rs. Qed.

Lemma concat_empty_head (d : string) (l : list string) :
  l <> [] -> String.concat d (""%string :: l) = d +:+ String.concat d l.
Proof. by destruct l. Qed.

(** [strings.Join(strings.Split(s, sep), sep) = s]. *)
Lemma Split_join s : String.concat (String sep EmptyString) (Split s) = s.
Proof.
  induction s as [|c s IH]; simpl; [done|].
  pose proof (Split_not_nil s) as Hne.
  case_decide; subst.
  - by rewrite concat_empty_head, IH.
  - destruct (Split s) as [|r rs]; [done|]. by rewrite concat_cons_char, IH.
Qed.
Lemma Split_app_sep x rest :
  count_sep x = 0%nat -> Split (x +:+ String sep rest) = x :: Split rest.
Proof.
  induction x as [|c x IH]; intros Hx; simpl.
  - by rewrite decide_True.
  - simpl in Hx. destruct (decide (c = sep)); [lia|]. rewrite IH by lia. done.
Qed.

(** Splitting items each followed by the separator gives the items and
    one empty piece for the final separator. *)
Lemma Split_terminated xs :
  Forall (fun x => count_sep x = 0%nat) xs ->
  Split (str_concat (map (fun x => x +:+ String sep EmptyString) xs)) = xs ++ [""%string].
Proof.
  induction 1 as [|x xs Hx Hxs IH]; [done|]. simpl.
  rewrite string_app_assoc, string_app_cons, string_app_nil_l. by rewrite Split_app_sep, IH.
Qed.

End Split.

(** ** string(i): the UTF-8 encoding of a code point *)

Definition rune1Max : Z := 127.
Definition rune2Max : Z := 2047.
Definition rune3Max : Z := 65535.
Definition MaxRune : Z := 1114111.
Definition surrogateMin : Z := 55296.
Definition surrogateMax : Z := 57343.
Definition RuneError : Z := 65533.
Definition t2 : Z := 192.
Definition t3 : Z := 224.
Definition t4 : Z := 240.
Definition tx : Z := 128.
Definition maskx : Z := 63.

(** [byte(x)]: the low eight bits. *)
Definition go_byte (z : Z) : Z := Z.land z 255.
(** [uint32(r)] of an [int32]: the two's complement reading. *)
Definition go_uint32 (z : Z) : Z := z mod 2 ^ 32.
(** [int32(v)] of an [int64]: wrap-around to 32 bits. *)
Definition go_int32 (z : Z) : Z := (z + 2 ^ 31) mod 2 ^ 32 - 2 ^ 31.

Definition enc3 (r : Z) : list Z :=
  [Z.lor t3 (go_byte (Z.shiftr r 12));
   Z.lor tx (Z.land (go_byte (Z.shiftr r 6)) maskx);
   Z.lor tx (Z.land (go_byte r) maskx)].

Definition enc4 (r : Z) : list Z :=
  [Z.lor t4 (go_byte (Z.shiftr r 18));
   Z.lor tx (Z.land (go_byte (Z.shiftr r 12)) maskx);
   Z.lor tx (Z.land (go_byte (Z.shiftr r 6)) maskx);
   Z.lor tx (Z.land (go_byte r) maskx)].

(** runtime.encoderune: the cases of its switch in order; the invalid
    case sets [r] to [RuneError] and falls through to the 3-byte case. *)
Definition encoderune (r : Z) : list Z :=
  let i := go_uint32 r in
  if i <=? rune1Max then [go_byte r]
  else if i <=? rune2Max then
    [Z.lor t2 (go_byte (Z.shiftr r 6)); Z.lor tx (Z.land (go_byte r) maskx)]
  else if (MaxRune <? i) || ((surrogateMin <=? i) && (i <=? surrogateMax)) then
    enc3 RuneError
  else if i <=? rune3Max then enc3 r
  else enc4 r.

(** runtime.intstring: [string(v)] for an [int] [v]. *)
Definition intstring_bytes (v : Z) : list Z :=
  let v := if go_int32 v =? v then v else RuneError in
  encoderune v.

Definition intstring (v : Z) : string := string_of_bytes (intstring_bytes v).

(** ** Bytes *)

Lemma go_byte_range z : 0 <= go_byte z < 256.
Proof.
  unfold go_byte. change 255 with (Z.ones 8). rewrite Z.land_ones by lia.
  apply Z.mod_pos_bound. lia.
Qed.

Lemma go_byte_high z : Z.testbit z 7 = true -> 128 <= go_byte z.
Proof.
  unfold go_byte. change 255 with (Z.ones 8). rewrite Z.land_ones by lia.
  rewrite Z.testbit_true by lia. change (2 ^ 7) with 128. change (2 ^ 8) with 256.
  intros. Z.div_mod_to_equations. lia.
Qed.

Lemma go_byte_small z : 0 <= z < 256 -> go_byte z = z.
Proof.
  intros H. unfold go_byte. change 255 with (Z.ones 8).
  rewrite Z.land_ones by lia. by apply Z.mod_small.
Qed.

Lemma byte_of_Z_code z : Ascii.N_of_ascii (byte_of_Z z) = Z.to_N (go_byte z).
Proof.
  unfold byte_of_Z. apply Ascii.N_ascii_embedding.
  pose proof (go_byte_range z). unfold go_byte in *. lia.
Qed.

Lemma string_of_bytes_cons b bs :
  string_of_bytes (b :: bs) = String (byte_of_Z b) (string_of_bytes bs).
Proof. reflexivity. Qed.

(** ** Properties of [string(i)] *)

Lemma lor_lead_bit t x : Z.testbit t 7 = true -> Z.testbit (Z.lor t x) 7 = true.
Proof. intros H. by rewrite Z.lor_spec, H. Qed.

Lemma encoderune_ascii r : 0 <= r <= rune1Max -> encoderune r = [r].
Proof.
  intros H. unfold encoderune, go_uint32, rune1Max in *.
  rewrite Z.mod_small by lia. rewrite (proj2 (Z.leb_le r 127)) by lia.
  unfold go_byte. change 255 with (Z.ones 8).
  rewrite Z.land_ones by lia. rewrite Z.mod_small by lia. done.
Qed.

(** Every non-ASCII code point starts with a byte whose top bit is set. *)
Lemma encoderune_lead r :
  rune1Max < go_uint32 r -> exists b bs, encoderune r = b :: bs /\ Z.testbit b 7 = true.
Proof.
  intros H. unfold encoderune. rewrite (proj2 (Z.leb_gt _ _) H).
  repeat (case_match; [eexists _, _; split; [reflexivity|]; by apply lor_lead_bit|]).
  eexists _, _; split; [reflexivity|]. by apply lor_lead_bit.
Qed.

Lemma intstring_bytes_ascii v : 0 <= v <= rune1Max -> intstring_bytes v = [v].
Proof.
  intros H. unfold intstring_bytes, go_int32, rune1Max in *.
  rewrite Z.mod_small by lia. rewrite Z.add_simpl_r, Z.eqb_refl.
  by apply encoderune_ascii.
Qed.

Lemma intstring_bytes_lead v :
  v < 0 \/ rune1Max < v -> exists b bs, intstring_bytes v = b :: bs /\ Z.testbit b 7 = true.
Proof.
  intros H. unfold intstring_bytes. apply encoderune_lead.
  unfold go_int32, go_uint32, rune1Max, RuneError in *.
  destruct (Z.eqb_spec ((v + 2 ^ 31) mod 2 ^ 32 - 2 ^ 31) v) as [E|E].
  - assert (- 2 ^ 31 <= v < 2 ^ 31) by (rewrite <- E; pose proof (Z.mod_pos_bound (v + 2^31) (2^32)); lia).
    destruct H; [|rewrite Z.mod_small; lia].
    rewrite <- (Z.mod_add v 1 (2 ^ 32)) by lia. rewrite Z.mod_small; lia.
  - rewrite Z.mod_small; lia.
Qed.

(** ** Decimal text, for comparison with [string(i)] *)

Lemma pretty_N_char_digit x : (48 <= Ascii.N_of_ascii (pretty_N_char x) <= 57)%N.
Proof. unfold pretty_N_char. repeat case_match; compute; intuition discriminate. Qed.

Lemma pretty_N_go_shape x s :
  (0 < x)%N ->
  exists c t, pretty_N_go x s = String c t /\
    (48 <= Ascii.N_of_ascii c <= 57)%N /\
    (String.length t >= String.length s)%nat /\
    ((10 <= x)%N -> (String.length t > String.length s)%nat).
Proof.
  revert s. induction (N.lt_wf_0 x) as [x _ IH]; intros s Hx.
  rewrite pretty_N_go_step by done.
  destruct (decide (x < 10)%N) as [Hlt|Hge].
  - rewrite N.div_small by done. rewrite pretty_N_go_0.
    eexists _, _. split; [reflexivity|]. split; [apply pretty_N_char_digit|]. lia.
  - destruct (IH (x `div` 10)%N ltac:(apply N.div_lt; lia)
                (String (pretty_N_char (x `mod` 10)) s)) as (c & t & -> & Hc & Hl & _).
    { apply N.div_str_pos. lia. }
    exists c, t. simpl in Hl. split; [done|lia].
Qed.

Lemma pretty_Z_pos p : pretty (Z.pos p) = pretty_N_go (N.pos p) "".
Proof. reflexivity. Qed.

Lemma pretty_Z_neg p : pretty (Z.neg p) = String "-" (pretty_N_go (N.pos p) "").
Proof. reflexivity. Qed.

Lemma pretty_Z_shape v :
  v <> 0 ->
  exists c t, pretty v = String c t /\ (45 <= Ascii.N_of_ascii c <= 57)%N /\
    (v < 0 \/ 10 <= v -> t <> EmptyString).
Proof.
  intros Hv. destruct v as [|p|p]; [done| |].
  - rewrite pretty_Z_pos.
    destruct (pretty_N_go_shape (N.pos p) "" ltac:(lia)) as (c & t & -> & Hc & _ & Hl).
    exists c, t. repeat split; [lia|lia|]. intros [?|?]; [lia|].
    intros ->. simpl in Hl. lia.
  - rewrite pretty_Z_neg. do 2 eexists. split; [reflexivity|].
    split; [vm_compute; split; discriminate|]. intros _.
    destruct (pretty_N_go_shape (N.pos p) "" ltac:(lia)) as (c & t & -> & _).
    done.
Qed.

(** The text [string(code)] that [sendResponse] puts in the Status-Code
    header is never the decimal text of [code]: Go's [string(int)]
    yields the UTF-8 encoding of the code point, e.g. [string(200)] is
    the two bytes C3 88 ("\u00c8"), not "200". *)
Theorem intstring_not_decimal v : intstring v <> pretty v.
Proof.
  destruct (decide (v = 0)) as [->|Hv0]; [by compute|].
  destruct (pretty_Z_shape v Hv0) as (c & t & -> & Hc & Ht).
  unfold intstring. intros Heq.
  destruct (decide (0 <= v <= rune1Max)) as [Hs|Hs].
  - rewrite intstring_bytes_ascii, string_of_bytes_cons in Heq by done.
    injection Heq as Hb Hnil.
    destruct (decide (10 <= v)); [by apply Ht; auto|].
    apply (f_equal Ascii.N_of_ascii) in Hb.
    rewrite byte_of_Z_code, go_byte_small in Hb by (unfold rune1Max in *; lia). lia.
  - destruct (intstring_bytes_lead v) as (b & bs & Hbs & Hbit); [unfold rune1Max in *; lia|].
    rewrite Hbs, string_of_bytes_cons in Heq. injection Heq as Hb _.
    apply (f_equal Ascii.N_of_ascii) in Hb. rewrite byte_of_Z_code in Hb.
    pose proof (go_byte_high b Hbit). lia.
Qed.
