(* ===== verification/GoJson.v ===== *)
(** * encoding/json's Marshal on the values the handler stores

    [WebHandler.body] is an [interface{}] (WebService.go line 166) and
    [sendResponse] passes it to [json.Marshal] (line 249).  [go_value]
    is the part of Go's dynamic values this needs: nil, strings,
    [map[string]string], structs with exported string-or-value fields,
    and the kinds Marshal refuses (channels, functions, complex numbers).

    [marshal] follows encoding/json: map keys are sorted bytewise, a
    struct field appears under the name [json_field_name] draws from its
    tag with [reflect.StructTag.Lookup] ([StructTag_Lookup]), and under
    its Go name when the tag has no well-formed [json] key, and strings are
    escaped as [appendString] does with HTML escaping on: quote,
    backslash and control bytes, [<], [>], [&], invalid UTF-8 bytes as
    �, and U+2028/U+2029.  [decode_rune] is [utf8.DecodeRune].
    This is library code, modelled from the Go sources it names. *)

From S2P Require Import Prelude GoStrings.

Local Open Scope Z_scope.

Inductive go_value : Type :=
| GoNil
| GoString (s : string)
| GoStringMap (m : gmap string string)
| GoStruct (fields : list (string * go_value))
| GoUnsupported (ty : string).

(** ** reflect.StructTag.Lookup and the field names of encoding/json *)

Definition is_char (c : ascii) (n : nat) : bool := Nat.eqb (nat_of_ascii c) n.

Fixpoint skip_spaces (s : string) : string :=
  match s with
  | String c s' => if is_char c 32 then skip_spaces s' else s
  | EmptyString => s
  end.

(** A byte that may be part of a key: above the space, and not a
    colon, a double quote or DEL. *)
Definition tag_name_char (c : ascii) : bool :=
  Nat.ltb 32 (nat_of_ascii c) && negb (is_char c 58) && negb (is_char c 34) && negb (is_char c 127).

(** The key scanned up to the first byte that ends it, and the rest. *)
Fixpoint scan_name (s : string) : string * string :=
  match s with
  | String c s' => if tag_name_char c then let '(n, r) := scan_name s' in (String c n, r) else (EmptyString, s)
  | EmptyString => (EmptyString, EmptyString)
  end.

(** After the opening quote: the text up to the closing quote, a
    backslash taking the next byte with it, and what follows the
    quote; [None] when no quote closes it. *)
Fixpoint scan_quoted (s : string) : option (string * string) :=
  match s with
  | EmptyString => None
  | String c s' =>
      if is_char c 34 then Some (EmptyString, s')
      else if is_char c 92 then
        match s' with
        | EmptyString => None
        | String d s'' => option_map (fun '(q, r) => (String c (String d q), r)) (scan_quoted s'')
        end
      else option_map (fun '(q, r) => (String c q, r)) (scan_quoted s')
  end.

(** The one-letter escapes [strconv.UnquoteChar] accepts in a double
    quoted string. *)
Definition simple_escape (d : ascii) : option ascii :=
  match nat_of_ascii d with
  | 97 => Some (ascii_of_nat 7) | 98 => Some (ascii_of_nat 8) | 102 => Some (ascii_of_nat 12)
  | 110 => Some (ascii_of_nat 10) | 114 => Some (ascii_of_nat 13) | 116 => Some (ascii_of_nat 9)
  | 118 => Some (ascii_of_nat 11) | 92 => Some d | 34 => Some d
  | _ => None
  end%nat.

(** [strconv.Unquote] on the text between the quotes: a newline is a
    syntax error.  The hexadecimal, octal and [\u] escapes are not
    modelled (read as errors); no tag of the program has an escape. *)
Fixpoint unquote_body (s : string) : option string :=
  match s with
  | EmptyString => Some EmptyString
  | String c s' =>
      if is_char c 10 then None
      else if is_char c 92 then
        match s' with
        | EmptyString => None
        | String d s'' =>
            match simple_escape d with
            | Some e => option_map (String e) (unquote_body s'')
            | None => None
            end
        end
      else option_map (String c) (unquote_body s')
  end.

(** One round of the loop of [StructTag.Lookup] per key and quoted value;
    each round consumes at least three bytes of the tag. *)
Fixpoint tag_lookup (fuel : nat) (key tag : string) : option string :=
  match fuel with
  | O => None
  | S fuel =>
      match skip_spaces tag with
      | EmptyString => None
      | tag =>
          let '(name, rest) := scan_name tag in
          match name, rest with
          | String _ _, String c (String q rest') =>
              if is_char c 58 && is_char q 34 then
                match scan_quoted rest' with
                | None => None
                | Some (qvalue, tag') =>
                    if String.eqb key name then unquote_body qvalue else tag_lookup fuel key tag'
                end
              else None
          | _, _ => None
          end
      end
  end.

(** [reflect.StructTag.Lookup]; [Get] is its value or the empty string. *)
Definition StructTag_Lookup (key tag : string) : option string :=
  tag_lookup (String.length tag) key tag.

(** [isValidTag], for ASCII names: letters, digits and the punctuation
    encoding/json allows. *)
Definition valid_tag_char (c : ascii) : bool :=
  let n := nat_of_ascii c in
  (Nat.leb 48 n && Nat.leb n 57) || (Nat.leb 65 n && Nat.leb n 90) || (Nat.leb 97 n && Nat.leb n 122) ||
  existsb (is_char c) (map nat_of_ascii (String.list_ascii_of_string "!#$%&()*+-./:;<=>?@[]^_{|}~ ")).

Definition isValidTag (s : string) : bool :=
  match s with
  | EmptyString => false
  | _ => forallb valid_tag_char (String.list_ascii_of_string s)
  end.

(** [parseTag]: the name before the first comma. *)
Fixpoint tag_name (s : string) : string :=
  match s with
  | String c s' => if is_char c 44 then EmptyString else String c (tag_name s')
  | EmptyString => EmptyString
  end.

(** The key encoding/json ([typeFields]) writes an exported field
    under, or [None] for the tag ["-"], which drops the field. *)
Definition json_field_name (field tag : string) : option string :=
  let t := default EmptyString (StructTag_Lookup "json" tag) in
  if String.eqb t "-" then None
  else
    let name := tag_name t in
    let name := if isValidTag name then name else EmptyString in
    Some (if String.eqb name EmptyString then field else name).

(** ** utf8.DecodeRune *)

Definition in_range (lo hi b : Z) : bool := (lo <=? b) && (b <=? hi).

(** The accepted range of the second byte, by first byte. *)
Definition accept_range (p0 : Z) : Z * Z :=
  if p0 =? 224 then (160, 191)
  else if p0 =? 237 then (128, 159)
  else if p0 =? 240 then (144, 191)
  else if p0 =? 244 then (128, 143)
  else (128, 191).

Definition decode_rune (bs : list Z) : Z * nat :=
  match bs with
  | [] => (RuneError, 0%nat)
  | p0 :: rest =>
      if p0 <? 128 then (p0, 1%nat)
      else if (p0 <? 194) || (244 <? p0) then (RuneError, 1%nat)
      else
        let '(lo, hi) := accept_range p0 in
        match rest with
        | [] => (RuneError, 1%nat)
        | b1 :: rest1 =>
            if negb (in_range lo hi b1) then (RuneError, 1%nat)
            else if p0 <? 224 then
              (Z.lor (Z.shiftl (Z.land p0 31) 6) (Z.land b1 63), 2%nat)
            else match rest1 with
                 | [] => (RuneError, 1%nat)
                 | b2 :: rest2 =>
                     if negb (in_range 128 191 b2) then (RuneError, 1%nat)
                     else if p0 <? 240 then
                       (Z.lor (Z.lor (Z.shiftl (Z.land p0 15) 12) (Z.shiftl (Z.land b1 63) 6))
                              (Z.land b2 63), 3%nat)
                     else match rest2 with
                          | [] => (RuneError, 1%nat)
                          | b3 :: _ =>
                              if negb (in_range 128 191 b3) then (RuneError, 1%nat)
                              else (Z.lor (Z.lor (Z.lor (Z.shiftl (Z.land p0 7) 18)
                                                        (Z.shiftl (Z.land b1 63) 12))
                                                 (Z.shiftl (Z.land b2 63) 6))
                                          (Z.land b3 63), 4%nat)
                          end
                 end
        end
  end.

(** ** appendString *)

Definition hex_digit (n : Z) : Z := if n <? 10 then 48 + n else 87 + n.

(** [htmlSafeSet]: printable ASCII other than quote, backslash, <, >, &. *)
Definition html_safe (b : Z) : bool :=
  (32 <=? b) && negb (b =? 34) && negb (b =? 92) && negb (b =? 60) &&
  negb (b =? 62) && negb (b =? 38).

Definition escape_ascii (b : Z) : list Z :=
  if html_safe b then [b]
  else if (b =? 92) || (b =? 34) then [92; b]
  else if b =? 8 then [92; 98]
  else if b =? 12 then [92; 102]
  else if b =? 10 then [92; 110]
  else if b =? 13 then [92; 114]
  else if b =? 9 then [92; 116]
  else [92; 117; 48; 48; hex_digit (Z.shiftr b 4); hex_digit (Z.land b 15)].

(** The loop of [appendString] over the bytes of the string.  Every
    round consumes at least one byte, so [length bs] rounds suffice
    ([json_escape_fuel] below). *)
Fixpoint json_escape (fuel : nat) (bs : list Z) : list Z :=
  match fuel with
  | O => []
  | S fuel' =>
      match bs with
      | [] => []
      | b :: rest =>
          if b <? 128 then escape_ascii b ++ json_escape fuel' rest
          else
            let '(c, size) := decode_rune bs in
            if (c =? RuneError) && (size =? 1)%nat then
              [92; 117; 102; 102; 102; 100] ++ json_escape fuel' rest
            else if (c =? 8232) || (c =? 8233) then
              [92; 117; 50; 48; 50; hex_digit (Z.land c 15)] ++ json_escape fuel' (drop size bs)
            else take size bs ++ json_escape fuel' (drop size bs)
      end
  end.

Definition json_quote (s : string) : string :=
  let bs := bytes_of_string s in
  string_of_bytes ([34] ++ json_escape (length bs) bs ++ [34]).

(** ** Marshal *)

Definition key_le (a b : string * string) : Prop := String.leb a.1 b.1 = true.
#[export] Instance key_le_dec : RelDecision key_le.
Proof. intros a b. unfold key_le. apply _. Defined.

(** The entries of a map in the order Marshal writes them. *)
Definition sorted_entries (m : gmap string string) : list (string * string) :=
  merge_sort key_le (map_to_list m).

Definition json_object (members : list string) : string :=
  "{" +:+ String.concat "," members +:+ "}".

Fixpoint marshal (v : go_value) : go_result string :=
  match v with
  | GoNil => Ok "null"
  | GoString s => Ok (json_quote s)
  | GoStringMap m =>
      Ok (json_object (map (fun kv => json_quote kv.1 +:+ ":" +:+ json_quote kv.2)
                           (sorted_entries m)))
  | GoStruct fs =>
      let fix fields (fs : list (string * go_value)) : go_result (list string) :=
        match fs with
        | [] => Ok []
        | (name, fv) :: fs' =>
            match marshal fv, fields fs' with
            | Ok s, Ok ss => Ok ((json_quote name +:+ ":" +:+ s) :: ss)
            | Err e, _ => Err e
            | Ok _, Err e => Err e
            end
        end in
      match fields fs with
      | Ok ss => Ok (json_object ss)
      | Err e => Err e
      end
  | GoUnsupported ty => Err ("json: unsupported type: " +:+ ty)
  end.

(** ** When Marshal succeeds *)

(** The values Marshal accepts: no unsupported kind anywhere inside. *)
Fixpoint json_safe (v : go_value) : bool :=
  match v with
  | GoUnsupported _ => false
  | GoStruct fs =>
      (fix fields (fs : list (string * go_value)) : bool :=
         match fs with
         | [] => true
         | (_, fv) :: fs' => json_safe fv && fields fs'
         end) fs
  | _ => true
  end.

Lemma marshal_safe v : json_safe v = true -> exists s, marshal v = Ok s.
Proof.
  revert v. fix IH 1. intros [| | |fs|ty] Hs; simpl in *; eauto; [|done].
  match goal with
  | |- exists s, match ?F fs with _ => _ end = Ok s =>
      assert (exists ss, F fs = Ok ss) as [ss ->]; [|eauto]
  end.
  revert fs Hs. fix IHfs 1. intros [|[name fv] fs] Hs; simpl in *; [eauto|].
  apply andb_prop in Hs as [Hv Hfs].
  destruct (IH fv Hv) as [s ->]. destruct (IHfs fs Hfs) as [ss ->]. eauto.
Qed.

(** ** The escaping loop needs no more rounds than bytes *)

Lemma decode_rune_size b bs : (1 <= (decode_rune (b :: bs)).2 <= length (b :: bs))%nat.
Proof. unfold decode_rune. repeat case_match; simplify_eq/=; lia. Qed.

(** Every round consumes at least one byte, so any fuel of at least
    [length bs] rounds gives the same text: the [length bs] of
    [json_quote] is enough. *)
Lemma json_escape_fuel n m bs :
  (length bs <= n)%nat -> (length bs <= m)%nat -> json_escape n bs = json_escape m bs.
Proof.
  revert m bs. induction n as [|n IH]; intros m bs Hn Hm.
  { destruct bs; [by destruct m|simpl in Hn; lia]. }
  destruct m as [|m]; [destruct bs; [done|simpl in Hm; lia]|].
  destruct bs as [|b rest]; [done|]. simpl in Hn, Hm. cbn [json_escape].
  pose proof (decode_rune_size b rest) as Hsz.
  destruct (decode_rune (b :: rest)) as [c size]. simpl in Hsz.
  repeat case_match; f_equal; apply IH;
    rewrite ?length_drop; simpl; lia.
Qed.

(** ** The rounds of [StructTag.Lookup] *)

Lemma skip_spaces_length s : (String.length (skip_spaces s) <= String.length s)%nat.
Proof. induction s as [|c s IH]; simpl; [lia|]. destruct (is_char c 32); simpl; lia. Qed.

Lemma scan_name_length s :
  (String.length (scan_name s).1 + String.length (scan_name s).2 = String.length s)%nat.
Proof.
  induction s as [|c s IH]; [done|]. simpl.
  destruct (tag_name_char c); [|done]. destruct (scan_name s) as [n r]. simpl in *. lia.
Qed.

Lemma scan_quoted_length s q r :
  scan_quoted s = Some (q, r) -> (String.length r < String.length s)%nat.
Proof.
  remember (String.length s) as k eqn:Hk. revert s q r Hk.
  induction k as [k IH] using lt_wf_ind. intros s q r Hk Hs.
  destruct s as [|c s]; [done|]. simpl in Hs, Hk.
  destruct (is_char c 34); [injection Hs as <- <-; lia|].
  destruct (is_char c 92).
  - destruct s as [|d s]; [done|]. simpl in Hk.
    destruct (scan_quoted s) as [[q' r']|] eqn:Hq; [|done]. injection Hs as <- <-.
    pose proof (IH (String.length s) ltac:(lia) s q' r' eq_refl Hq). lia.
  - destruct (scan_quoted s) as [[q' r']|] eqn:Hq; [|done]. injection Hs as <- <-.
    pose proof (IH (String.length s) ltac:(lia) s q' r' eq_refl Hq). lia.
Qed.

(** Every round consumes at least three bytes, so any fuel of at least
    [String.length tag] rounds gives the same answer: the fuel of
    [StructTag_Lookup] is enough. *)
Lemma tag_lookup_fuel n m key tag :
  (String.length tag <= n)%nat -> (String.length tag <= m)%nat ->
  tag_lookup n key tag = tag_lookup m key tag.
Proof.
  revert m tag. induction n as [|n IH]; intros m tag Hn Hm.
  { destruct tag; [by destruct m|simpl in Hn; lia]. }
  destruct m as [|m]; [destruct tag; [done|simpl in Hm; lia]|].
  cbn [tag_lookup]. pose proof (skip_spaces_length tag) as Hsk.
  destruct (skip_spaces tag) as [|c0 t0]; [done|].
  pose proof (scan_name_length (String c0 t0)) as Hsn.
  destruct (scan_name (String c0 t0)) as [[|a name] [|c [|q rest]]]; try done.
  destruct (is_char c 58 && is_char q 34); [|done].
  destruct (scan_quoted rest) as [[qv tag']|] eqn:Hq; [|done].
  pose proof (scan_quoted_length _ _ _ Hq). simpl in *.
  destruct (String.eqb key (String a name)); [done|]. apply IH; lia.
Qed.
