(* ===== verification/Utf8.v ===== *)
(** * UTF-8: the bytes of [string(v)]

    [sendResponse] writes [string(handler.code)] into the
    [Status-Code] header and [executeQuery] writes [string(len(..))]
    into its mismatch message (WebService.go lines 72 and 260).  Go's
    [string(int)] is [runtime.intstring]: the UTF-8 encoding of the code
    point ([GoStrings.encoderune]).  This file shows that the encoding
    of every valid code point (in [0, 0x10FFFF], outside the surrogate
    range) is one to four bytes, each the lead or continuation bits plus
    a payload ([enc2_spec], [enc3_spec], [enc4_spec], [encoderune_valid]),
    and that every other value becomes the three bytes of U+FFFD: the
    shape [intstring_bytes_shape] the bounds on the mismatch message use. *)

From S2P Require Import Prelude GoStrings GoJson.

Local Open Scope Z_scope.

(** The code points [encoderune] encodes as themselves. *)
Definition valid_rune (r : Z) : bool :=
  (0 <=? r) && (r <=? MaxRune) && negb ((surrogateMin <=? r) && (r <=? surrogateMax)).

(** ** Bit operations as arithmetic *)

Lemma lor_add a b k : 0 <= k -> a mod 2 ^ k = 0 -> 0 <= b < 2 ^ k -> Z.lor a b = a + b.
Proof.
  intros Hk Ha Hb.
  assert (Hland : Z.land a b = 0).
  { apply Z.bits_inj'. intros i Hi. rewrite Z.land_spec, Z.bits_0.
    destruct (Z.lt_ge_cases i k).
    - replace a with (Z.shiftl (a / 2 ^ k) k)
        by (rewrite Z.shiftl_mul_pow2 by lia; pose proof (Z.div_mod a (2 ^ k)); lia).
      by rewrite Z.shiftl_spec_low.
    - replace b with (b mod 2 ^ k) by (apply Z.mod_small; lia).
      rewrite Z.mod_pow2_bits_high by lia. apply andb_false_r. }
  rewrite <- Z.lxor_lor by done. by rewrite Z.add_nocarry_lxor.
Qed.

Lemma go_byte_mod x : go_byte x = x mod 256.
Proof. unfold go_byte. change 255 with (Z.ones 8). by rewrite Z.land_ones. Qed.

Lemma land_mask x n : 0 <= n -> Z.land x (2 ^ n - 1) = x mod 2 ^ n.
Proof. intros Hn. replace (2 ^ n - 1) with (Z.ones n) by (rewrite Z.ones_equiv; lia). by apply Z.land_ones. Qed.

(** [tx | (byte(x) & maskx)]: a continuation byte carrying [x mod 64]. *)
Lemma cont_byte x : Z.lor tx (Z.land (go_byte x) maskx) = 128 + x mod 64.
Proof.
  unfold tx, maskx. rewrite go_byte_mod. change 63 with (2 ^ 6 - 1).
  rewrite land_mask by lia. rewrite (lor_add _ _ 6); [|lia|done|apply Z.mod_pos_bound; lia].
  f_equal. change (2 ^ 6) with 64. apply Z.mod_mod_divide. by exists 4.
Qed.

(** A lead byte [t | byte(r >> s)] whose payload fits in the [k] bits
    left free by [t]. *)
Lemma lead_byte t r s k :
  0 <= k -> 0 <= s -> t mod 2 ^ k = 0 -> 0 <= r / 2 ^ s < 2 ^ k -> 2 ^ k <= 256 ->
  Z.lor t (go_byte (Z.shiftr r s)) = t + r / 2 ^ s.
Proof.
  intros Hk Hs Ht Hr H256. rewrite go_byte_mod, Z.shiftr_div_pow2 by done.
  rewrite Z.mod_small by lia. by apply (lor_add _ _ k).
Qed.

(** ** The encoded bytes *)

Lemma enc2_spec r :
  rune1Max < r <= rune2Max ->
  [Z.lor t2 (go_byte (Z.shiftr r 6)); Z.lor tx (Z.land (go_byte r) maskx)] =
    [192 + r / 64; 128 + r mod 64].
Proof.
  intros Hr. unfold rune1Max, rune2Max, t2 in *. rewrite cont_byte.
  rewrite (lead_byte _ _ 6 5); [done|lia|lia|done| |lia].
  change (2 ^ 6) with 64. change (2 ^ 5) with 32. Z.div_mod_to_equations. lia.
Qed.

Lemma enc3_spec r :
  0 <= r <= rune3Max -> enc3 r = [224 + r / 4096; 128 + (r / 64) mod 64; 128 + r mod 64].
Proof.
  intros Hr. unfold enc3, rune3Max, t3 in *. rewrite !cont_byte.
  rewrite (lead_byte _ _ 12 4); [|lia|lia|done| |lia].
  - rewrite Z.shiftr_div_pow2 by lia. done.
  - change (2 ^ 12) with 4096. change (2 ^ 4) with 16. Z.div_mod_to_equations. lia.
Qed.

Lemma enc4_spec r :
  rune3Max < r <= MaxRune ->
  enc4 r = [240 + r / 262144; 128 + (r / 4096) mod 64; 128 + (r / 64) mod 64; 128 + r mod 64].
Proof.
  intros Hr. unfold enc4, rune3Max, MaxRune, t4 in *. rewrite !cont_byte.
  rewrite (lead_byte _ _ 18 3); [|lia|lia|done| |lia].
  - rewrite !Z.shiftr_div_pow2 by lia. done.
  - change (2 ^ 18) with 262144. change (2 ^ 3) with 8. Z.div_mod_to_equations. lia.
Qed.

(** ** The encoding of a valid code point *)

Lemma go_uint32_small r : 0 <= r <= MaxRune -> go_uint32 r = r.
Proof. unfold go_uint32, MaxRune. intros. apply Z.mod_small. lia. Qed.

Lemma valid_rune_spec r :
  valid_rune r = true <-> 0 <= r <= MaxRune /\ ~ (surrogateMin <= r <= surrogateMax).
Proof.
  unfold valid_rune. rewrite !andb_true_iff, negb_true_iff, andb_false_iff, !Z.leb_le, !Z.leb_gt.
  unfold MaxRune, surrogateMin, surrogateMax. lia.
Qed.

(** The four lengths of the encoding of a valid code point, each byte
    as lead bits plus payload. *)
Lemma encoderune_valid r :
  valid_rune r = true ->
  (0 <= r <= 127 /\ encoderune r = [r]) \/
  (127 < r <= 2047 /\ encoderune r = [192 + r / 64; 128 + r mod 64]) \/
  (2047 < r <= 65535 /\ ~ (55296 <= r <= 57343) /\
     encoderune r = [224 + r / 4096; 128 + (r / 64) mod 64; 128 + r mod 64]) \/
  (65535 < r <= 1114111 /\
     encoderune r = [240 + r / 262144; 128 + (r / 4096) mod 64; 128 + (r / 64) mod 64;
                     128 + r mod 64]).
Proof.
  intros Hv. apply valid_rune_spec in Hv as [Hr Hs].
  destruct (decide (r <= rune1Max)) as [H1|H1].
  { left. split; [unfold rune1Max in H1; lia|]. apply encoderune_ascii. lia. }
  right. unfold encoderune. rewrite go_uint32_small by done.
  rewrite (proj2 (Z.leb_gt r rune1Max)) by lia.
  destruct (decide (r <= rune2Max)) as [H2|H2].
  { left. rewrite (proj2 (Z.leb_le r rune2Max)), enc2_spec by lia.
    unfold rune1Max, rune2Max in *. split; [lia|done]. }
  right. rewrite (proj2 (Z.leb_gt r rune2Max)) by lia.
  replace ((MaxRune <? r) || ((surrogateMin <=? r) && (r <=? surrogateMax))) with false
    by (symmetry; rewrite orb_false_iff, andb_false_iff, Z.ltb_ge, !Z.leb_gt; lia).
  unfold rune1Max, rune2Max, rune3Max, MaxRune, surrogateMin, surrogateMax in *.
  destruct (decide (r <= 65535)) as [H3|H3].
  - left. rewrite (proj2 (Z.leb_le r 65535)), enc3_spec by (unfold rune3Max; lia).
    split; [lia|split; [lia|done]].
  - right. rewrite (proj2 (Z.leb_gt r 65535)), enc4_spec by (unfold rune3Max, MaxRune; lia).
    split; [lia|done].
Qed.

(** ** [string(v)] *)

Lemma go_int32_range v : go_int32 v = v -> - 2 ^ 31 <= v < 2 ^ 31.
Proof.
  unfold go_int32. intros E. rewrite <- E. pose proof (Z.mod_pos_bound (v + 2 ^ 31) (2 ^ 32)). lia.
Qed.

Lemma go_int32_small v : - 2 ^ 31 <= v < 2 ^ 31 -> go_int32 v = v.
Proof. unfold go_int32. intros. rewrite Z.mod_small; lia. Qed.

(** The encoding of U+FFFD. *)
Lemma enc3_RuneError : enc3 RuneError = [239; 191; 189].
Proof. reflexivity. Qed.

Lemma encoderune_invalid r :
  - 2 ^ 31 <= r < 2 ^ 31 -> valid_rune r = false -> encoderune r = [239; 191; 189].
Proof.
  intros Hr Hv. rewrite <- enc3_RuneError.
  assert (Hinv : ~ (0 <= r <= MaxRune /\ ~ (surrogateMin <= r <= surrogateMax)))
    by (rewrite <- valid_rune_spec; congruence).
  assert (Hi : go_uint32 r = if decide (r < 0) then r + 2 ^ 32 else r).
  { unfold go_uint32. case_decide.
    - rewrite <- (Z.mod_add r 1 (2 ^ 32)) by lia. rewrite Z.mod_small; lia.
    - rewrite Z.mod_small; lia. }
  unfold encoderune. rewrite Hi.
  unfold rune1Max, rune2Max, MaxRune, surrogateMin, surrogateMax in *.
  case_decide; rewrite (proj2 (Z.leb_gt _ 127)), (proj2 (Z.leb_gt _ 2047)) by lia;
    replace (_ || _) with true; [done| |done|];
    symmetry; rewrite orb_true_iff, andb_true_iff, Z.ltb_lt, !Z.leb_le; lia.
Qed.

Lemma intstring_bytes_valid v : valid_rune v = true -> intstring_bytes v = encoderune v.
Proof.
  intros Hv. apply valid_rune_spec in Hv as [Hr _]. unfold intstring_bytes.
  rewrite go_int32_small, Z.eqb_refl by (unfold MaxRune in Hr; lia). done.
Qed.

Lemma intstring_bytes_invalid v : valid_rune v = false -> intstring_bytes v = [239; 191; 189].
Proof.
  intros Hv. unfold intstring_bytes. destruct (Z.eqb_spec (go_int32 v) v) as [E|E].
  - apply encoderune_invalid; [by apply go_int32_range|done].
  - reflexivity.
Qed.

(** [string(v)] is one to four bytes. *)
Lemma intstring_bytes_shape v :
  Forall (fun b => 0 <= b < 256) (intstring_bytes v) /\ (1 <= length (intstring_bytes v) <= 4)%nat.
Proof.
  destruct (valid_rune v) eqn:Hv.
  - rewrite intstring_bytes_valid by done.
    destruct (encoderune_valid v Hv) as [[? ->]|[[? ->]|[[? [? ->]]|[? ->]]]];
      (split; [repeat constructor; Z.div_mod_to_equations; lia|simpl; lia]).
  - rewrite intstring_bytes_invalid by done. split; [repeat constructor; lia|simpl; lia].
Qed.

Lemma string_length_of_bytes bs : String.length (string_of_bytes bs) = length bs.
Proof. unfold string_of_bytes. induction bs as [|b bs IH]; simpl; congruence. Qed.
