(* ===== verification/HttpWriter.v ===== *)
(** * The net/http ResponseWriter as an interface

    [sendResponse] (WebService.go lines 248-261) writes the body first
    and sets the [Content-Type] and [Status-Code] headers afterwards.
    What a client receives then depends on the contract of
    [http.ResponseWriter]: the first [Write] sends the status line
    (200 unless [WriteHeader] was called) with the header map as it is at
    that moment, completed by a sniffed [Content-Type] when none is set;
    "changing the header map after a call to WriteHeader (or Write) has
    no effect".

    [ResponseWriter] is the interface the handler is written against and
    [ResponseWriterLaws] is that contract; [HttpResponse] is a model of
    net/http's [response] that satisfies it.  This is library code, not
    part of the repository. *)

From S2P Require Import Prelude.

Local Open Scope Z_scope.

(** An [http.Header] restricted to what [Header().Set] does: one value
    per canonical key. *)
Abbreviation header := (gmap string string).

Class ResponseWriter (W : Type) := {
  rw_header : W -> header;                  (* w.Header() *)
  rw_header_set : string -> string -> W -> W;  (* w.Header().Set(k, v) *)
  rw_write : string -> W -> W;              (* w.Write(b), fmt.Fprint(w, s) *)
  rw_sent_status : W -> option Z;           (* status line once sent *)
  rw_sent_header : W -> option header;      (* headers once sent *)
  rw_sent_body : W -> string                (* body bytes sent so far *)
}.

Class ResponseWriterLaws (W : Type) `{ResponseWriter W} : Prop := {
  rw_header_set_header k v w :
    rw_header (rw_header_set k v w) = <[k:=v]> (rw_header w);
  rw_header_set_sent k v w :
    rw_sent_status (rw_header_set k v w) = rw_sent_status w /\
    rw_sent_header (rw_header_set k v w) = rw_sent_header w /\
    rw_sent_body (rw_header_set k v w) = rw_sent_body w;
  rw_write_status b w :
    rw_sent_status (rw_write b w) = Some (default 200 (rw_sent_status w));
  rw_write_first_header b w k :
    rw_sent_status w = None -> k <> "Content-Type"%string ->
    (rw_sent_header (rw_write b w) ≫= lookup k) = rw_header w !! k;
  rw_write_later_header b w :
    rw_sent_status w <> None -> rw_sent_header (rw_write b w) = rw_sent_header w;
  rw_write_body b w : rw_sent_body (rw_write b w) = rw_sent_body w +:+ b;
  rw_write_header b w : rw_header (rw_write b w) = rw_header w
}.

(** ** A model of net/http's [response] *)

Record HttpResponse := {
  handlerHeader : header;
  wroteHeader : option Z;            (* status once WriteHeader ran *)
  sentHeader : option header;        (* snapshot taken by WriteHeader *)
  sentBody : string
}.

Section NetHttp.
(** [http.DetectContentType], used when no Content-Type is set. *)
Context (DetectContentType : string -> string).

Definition response_header_set (k v : string) (w : HttpResponse) : HttpResponse :=
  {| handlerHeader := <[k:=v]> (handlerHeader w); wroteHeader := wroteHeader w;
     sentHeader := sentHeader w; sentBody := sentBody w |}.

Definition response_write (b : string) (w : HttpResponse) : HttpResponse :=
  match wroteHeader w with
  | Some _ =>
      {| handlerHeader := handlerHeader w; wroteHeader := wroteHeader w;
         sentHeader := sentHeader w; sentBody := sentBody w +:+ b |}
  | None =>
      let h := handlerHeader w in
      let h := if decide (h !! "Content-Type"%string = None)
               then <["Content-Type":=DetectContentType b]> h else h in
      {| handlerHeader := handlerHeader w; wroteHeader := Some 200;
         sentHeader := Some h; sentBody := sentBody w +:+ b |}
  end.

Definition net_http_writer : ResponseWriter HttpResponse := {|
  rw_header := handlerHeader;
  rw_header_set := response_header_set;
  rw_write := response_write;
  rw_sent_status := wroteHeader;
  rw_sent_header := sentHeader;
  rw_sent_body := sentBody
|}.

Lemma net_http_writer_laws : @ResponseWriterLaws HttpResponse net_http_writer.
Proof.
  split; intros; simpl in *; unfold response_write, response_header_set in *;
    repeat case_match; simplify_eq/=; try done.
  rewrite lookup_insert_ne; congruence.
Qed.

End NetHttp.

Definition fresh_response : HttpResponse :=
  {| handlerHeader := ∅; wroteHeader := None; sentHeader := None; sentBody := "" |}.

(** What [http.DetectContentType] answers for every body this program
    writes: they begin with [{] or [n] ("null"), which match no
    signature of the sniffing table, and are valid text. *)
Definition sniff_json_text (_ : string) : string := "text/plain; charset=utf-8".

#[export] Instance net_http : ResponseWriter HttpResponse := net_http_writer sniff_json_text.
#[export] Instance net_http_laws : ResponseWriterLaws HttpResponse :=
  net_http_writer_laws sniff_json_text.
