(* ===== verification/SqlDb.v ===== *)
(** * The database as seen through database/sql

    The handler opens a [*sql.DB] with [sql.Open("mysql", DB_AUTH)]
    (WebService.go line 204), runs statements with [con.Query] and reads
    only [rows.Columns()] of each result (lines 57-62, 94-99); it never
    reads a row.  So a database is modelled by what those calls return:
    [SqlDb] gives the error of [sql.Open] for a driver name and a
    data source name and,, for each statement text,
    either the error of [Query] or the column list (or error) of
    [Columns].  What the program does to the database is recorded as a
    trace of [db_event]s.

    [SqlLaws] is the one fact of SQL the theorems rely on: a statement
    [SELECT `c` FROM ...] that succeeds has exactly the result column [c].
    [EmployeesDb] is a small instance over the MySQL "employees" sample
    schema, used by the witnesses.  Library and environment code, not part
    of the repository. *)

From S2P Require Import Prelude.

Inductive cols_result : Type :=
| ColsOk (cols : list string)
| ColsErr (err : string).

Inductive query_result : Type :=
| QueryOk (rows : cols_result)
| QueryErr (err : string).

(** What the program does to the database, in order. *)
Inductive db_event : Type :=
| EvOpen
| EvQuery (q : string)
| EvClose.

#[export] Instance db_event_eq_dec : EqDecision db_event.
Proof. solve_decision. Defined.

Class SqlDb := {
  sql_open : string -> string -> option string;  (* err of sql.Open(driverName, dataSourceName) *)
  sql_query : string -> query_result    (* con.Query(q), then rows.Columns() *)
}.

(** ** The select list of a one-column SELECT *)

Fixpoint take_ident (s : string) : string :=
  match s with
  | EmptyString => EmptyString
  | String c s' => if decide (c = "`"%char) then EmptyString else String c (take_ident s')
  end.

Definition select_one_column (q : string) : option string :=
  match strip_prefix "SELECT `" q with
  | Some r =>
      let c := take_ident r in
      match strip_prefix (c +:+ "` FROM ") r with
      | Some _ => Some c
      | None => None
      end
  | None => None
  end.

Class SqlLaws `{SqlDb} : Prop := {
  sql_select_one_column q c cs :
    select_one_column q = Some c -> sql_query q = QueryOk (ColsOk cs) -> cs = [c]
}.

(** ** An instance: the MySQL employees sample database *)

Definition employees_schema : list (string * list string) := [
  ("departments", ["dept_no"; "dept_name"]);
  ("dept_emp", ["emp_no"; "dept_no"; "from_date"; "to_date"]);
  ("dept_manager", ["emp_no"; "dept_no"; "from_date"; "to_date"]);
  ("employees", ["emp_no"; "birth_date"; "first_name"; "last_name"; "gender"; "hire_date"]);
  ("salaries", ["emp_no"; "salary"; "from_date"; "to_date"]);
  ("titles", ["emp_no"; "title"; "from_date"; "to_date"])]%string.

Fixpoint take_word (s : string) : string :=
  match s with
  | EmptyString => EmptyString
  | String c s' => if decide (c = " "%char) then EmptyString else String c (take_word s')
  end.

Definition mysql_syntax_error : string :=
  "Error 1064: You have an error in your SQL syntax".

(** A list ending in a comma is rejected by MySQL's parser. *)
Definition has_dangling_comma (q : string) : bool :=
  bool_decide (is_Some (String.index 0 ",)" q) \/ is_Some (String.index 0 ", " q) \/
               is_Some (String.index 0 ",;" q)).

Definition employees_query (q : string) : query_result :=
  match select_one_column q with
  | Some c => QueryOk (ColsOk [c])
  | None =>
      if has_dangling_comma q then QueryErr mysql_syntax_error else
      match strip_prefix "select * from " q with
      | Some r =>
          match list_find (fun tc => tc.1 = take_word r) employees_schema with
          | Some (_, (_, cols)) => QueryOk (ColsOk cols)
          | None => QueryErr "Error 1146: Table doesn't exist"
          end
      | None =>
          if String.prefix "insert into " q || String.prefix "update " q ||
             String.prefix "delete from " q
          then QueryOk (ColsOk []) else QueryErr mysql_syntax_error
      end
  end.

#[export] Instance EmployeesDb : SqlDb := {|
  sql_open _ _ := None;
  sql_query := employees_query
|}.

#[export] Instance EmployeesDb_laws : SqlLaws.
Proof.
  split. intros q c cs Hq. simpl. unfold employees_query. rewrite Hq. congruence.
Qed.
