(* ===== verification/WebHandler.v ===== *)
(** * The per-request handler state and the response writer

    [WebHandler] (WebService.go lines 165-169) holds the pending body
    and status code and the [http.ResponseWriter].  Every operation of
    the program runs in [GoM ReqState]: the handler's fields, plus the
    trace of what was done to the database (the [*sql.DB] connection is
    a local of [parseRequest], its effects are the trace).

    - [fireErrResponse] (lines 235-239) sets code and error body, then
      panics: its type [GoM _ A] for every [A] says it never returns;
    - [setResponse] (lines 242-245);
    - [sendResponse] (lines 248-261): marshal, write, then set headers;
    - [mandatoryPathLength] (lines 189-194). *)

From S2P Require Import Prelude GoStrings GoJson HttpWriter SqlDb.

Local Open Scope Z_scope.
Local Open Scope go_scope.

(** ** Constants (lines 13-24) *)

Definition IP_PORT : string := "localhost:9999".
Definition DB_USER : string := "root".
Definition DB_PASSWORD : string := "root".
Definition DB_NAME : string := "employees".
Definition DB_AUTH : string := DB_USER +:+ ":" +:+ DB_PASSWORD +:+ "@/" +:+ DB_NAME.
Definition HTTP_HDR_CONTENT_TYPE : string := "Content-Type".
Definition HTTP_HDR_STATUS_CODE : string := "Status-Code".
Definition VALUE_CONTENT_TYPE_JSON : string := "application/json; charset=utf-8".

(** ** Types of the source *)

(** lines 26-28 *)
Record err_response := {
  Message : string
}.

(** The tag of the field [Message], as written on line 27: a space
    after the colon. *)
Definition err_response_tag : string := "json: " +:+ dquote +:+ "message" +:+ dquote.

(** An [err_response] stored in the [interface{}] field [body]: a
    struct value whose one field is encoded under the key encoding/json
    draws from its tag. *)
Definition err_response_value (e : err_response) : go_value :=
  GoStruct (match json_field_name "Message" err_response_tag with
            | Some k => [(k, GoString (Message e))]
            | None => []
            end).

(** [err_response{Message: msg}] of line 237. *)
Definition err_body (msg : string) : go_value := err_response_value {| Message := msg |}.

Record WebHandler (W : Type) := {
  body : go_value;
  code : Z;
  writer : W
}.
Arguments body {W}. Arguments code {W}. Arguments writer {W}.

(** The state a request runs in. *)
Record ReqState (W : Type) := {
  handler : WebHandler W;
  db_trace : list db_event
}.
Arguments handler {W}. Arguments db_trace {W}.

Section Handler.
Context {W : Type} `{!ResponseWriter W}.

Local Abbreviation M := (GoM (ReqState W)).

Definition set_handler (f : WebHandler W -> WebHandler W) (st : ReqState W) : ReqState W :=
  {| handler := f (handler st); db_trace := db_trace st |}.

Definition set_code_body (c : Z) (b : go_value) (h : WebHandler W) : WebHandler W :=
  {| body := b; code := c; writer := writer h |}.

Definition set_code (c : Z) (h : WebHandler W) : WebHandler W :=
  {| body := body h; code := c; writer := writer h |}.

Definition on_writer (f : W -> W) (h : WebHandler W) : WebHandler W :=
  {| body := body h; code := code h; writer := f (writer h) |}.

(** [handler.writer.Write(b)] and [handler.writer.Header().Set(k, v)]. *)
Definition writer_write (b : string) : M unit := go_modify (set_handler (on_writer (rw_write b))).
Definition writer_header_set (k v : string) : M unit :=
  go_modify (set_handler (on_writer (rw_header_set k v))).

(** lines 235-239 *)
Definition fireErrResponse {A} (c : Z) (msg : string) : M A :=
  go_modify (set_handler (set_code_body c (err_body msg))) ;;;
  go_throw (PanicValue msg).

(** lines 242-245 *)
Definition setResponse (c : Z) (b : go_value) : M unit :=
  go_modify (set_handler (set_code_body c b)).

(** The text written when Marshal fails (line 253): note that the
    object is never closed. *)
Definition marshal_failure_text (e : string) : string :=
  "{ " +:+ dquote +:+ "Message" +:+ dquote +:+ ": " +:+ dquote +:+
  "Failed marshialling: " +:+ e +:+ dquote.

(** lines 248-261 *)
Definition sendResponse : M unit :=
  let! h := go_gets handler in
  (match marshal (body h) with
   | Err e =>
       go_modify (set_handler (set_code 500)) ;;;
       writer_write (marshal_failure_text e)
   | Ok marshaledResponse => writer_write marshaledResponse
   end) ;;;
  writer_header_set HTTP_HDR_CONTENT_TYPE VALUE_CONTENT_TYPE_JSON ;;;
  let! h := go_gets handler in
  writer_header_set HTTP_HDR_STATUS_CODE (intstring (code h)).

(** lines 189-194: a path of fewer than [minLength + 1] pieces is
    rejected (the first piece of a split URL path is always empty). *)
Definition mandatoryPathLength (path : list string) (minLength : nat) : M unit :=
  if decide (length path < minLength + 1)%nat
  then fireErrResponse 400 "Requested path is too short"
  else go_ret tt.
End Handler.

(** ** database/sql calls, recorded in the trace *)

(** A non-nil [*sql.DB]. *)
Inductive sql_conn : Type := SqlConn.

Section Database.
Context {W : Type} `{!SqlDb}.

Local Abbreviation M := (GoM (ReqState W)).

Definition log_event (e : db_event) (st : ReqState W) : ReqState W :=
  {| handler := handler st; db_trace := db_trace st ++ [e] |}.

(** line 204, [con, err := sql.Open("mysql", DB_AUTH)]: the handle
    is nil exactly when the error is not. *)
Definition sql_Open : M (option sql_conn * option string) :=
  match sql_open "mysql" DB_AUTH with
  | None => go_modify (log_event EvOpen) ;;; go_ret (Some SqlConn, None)
  | Some e => go_ret (None, Some e)
  end.

(** [con.Query(q)] (lines 57, 94); its result carries what
    [rows.Columns()] of the returned rows gives. *)
Definition db_Query (q : string) : M query_result :=
  go_modify (log_event (EvQuery q)) ;;; go_ret (sql_query q).

(** [con.Close()]: a method call through a nil [*sql.DB] panics. *)
Definition db_Close (con : option sql_conn) : M unit :=
  match con with
  | Some _ => go_modify (log_event EvClose)
  | None => go_throw PanicNilDeref
  end.
End Database.

(** The tag's [json] key is not found: the space after the colon ends
    the scan, so the field keeps its Go name. *)
Lemma err_response_key : json_field_name "Message" err_response_tag = Some "Message".
Proof. reflexivity. Qed.

(** C25. The error body is serialized as [{"Message":"..."}]: the field
    tag [`json: "message"`] of line 27 has a space after the colon, so
    [reflect.StructTag.Lookup] finds no [json] key and encoding/json
    uses the Go field name; the spec's [{message: ...}] is not what
    clients receive. *)
Theorem err_response_json msg :
  marshal (err_body msg) =
    Ok ("{" +:+ dquote +:+ "Message" +:+ dquote +:+ ":" +:+ json_quote msg +:+ "}").
Proof.
  unfold err_body, err_response_value. rewrite err_response_key.
  simpl. unfold json_object. simpl. by autorewrite with go_run.
Qed.
