(* ===== verification/Tables.v ===== *)
(** * Table metadata: primary-key column and column names

    - [lookUpTableIdColumn] (WebService.go lines 108-131): the switch
      over the six tables of the employees schema; any other name fires
      a 400 "Unknown table" error.  [tableIdColumn] is the fixed mapping
      of the spec (section 3) it implements.
    - [getTableColumnNames] (lines 91-105) with its query text
      [columnsQuery] (line 92): it returns the *column names of the
      metadata query's result*, i.e. [["COLUMN_NAME"]], not the list of
      the table's columns that the query selects. *)

From S2P Require Import Prelude GoStrings GoJson HttpWriter SqlDb WebHandler.

Local Open Scope Z_scope.
Local Open Scope go_scope.

(** The mapping of spec section 3, as a partial function. *)
Definition tableIdColumn (tableName : string) : option string :=
  if decide (tableName = "departments") then Some "dept_no"
  else if decide (tableName = "dept_emp") then Some "emp_no"
  else if decide (tableName = "dept_manager") then Some "dept_no"
  else if decide (tableName = "employees") then Some "emp_no"
  else if decide (tableName = "salaries") then Some "emp_no"
  else if decide (tableName = "titles") then Some "emp_no"
  else None.

(** line 92 *)
Definition columnsQuery (table : string) : string :=
  "SELECT `COLUMN_NAME` FROM `INFORMATION_SCHEMA`.`COLUMNS` WHERE `TABLE_SCHEMA`='" +:+
  DB_NAME +:+ "' AND `TABLE_NAME`='" +:+ table +:+ "';".

Section Tables.
Context {W : Type} `{!ResponseWriter W} `{!SqlDb}.

Local Abbreviation M := (GoM (ReqState W)).

(** lines 108-131: the cases of the switch in order; the [return ""]
    after the switch is reached only through the default case, whose
    [fireErrResponse] never returns. *)
Definition lookUpTableIdColumn (tableName : string) : M string :=
  if decide (tableName = "departments") then go_ret "dept_no"
  else if decide (tableName = "dept_emp") then go_ret "emp_no"
  else if decide (tableName = "dept_manager") then go_ret "dept_no"
  else if decide (tableName = "employees") then go_ret "emp_no"
  else if decide (tableName = "salaries") then go_ret "emp_no"
  else if decide (tableName = "titles") then go_ret "emp_no"
  else fireErrResponse (A:=unit) 400 ("Unknown table: " +:+ tableName) ;;; go_ret "".

(** lines 91-105 *)
Definition getTableColumnNames (table : string) : M (list string) :=
  let compostedQuery := columnsQuery table in
  let! resp := db_Query compostedQuery in
  match resp with
  | QueryErr err =>
      fireErrResponse 500 ("Failed executing query: " +:+ compostedQuery +:+ ":" +:+ err)
  | QueryOk rows =>
      match rows with
      | ColsErr err => fireErrResponse 500 ("Failed extracting columns: " +:+ err)
      | ColsOk cols => go_ret cols
      end
  end.
End Tables.

Section TableProps.
Context {W : Type} `{!ResponseWriter W}.

(** C20. [lookUpTableIdColumn] implements the fixed table-to-key
    mapping of the spec: a known table yields its key column and
    changes nothing; any other name sets a 400 "Unknown table" error
    and panics. *)
Theorem lookUpTableIdColumn_spec t (st : ReqState W) :
  lookUpTableIdColumn t st =
    match tableIdColumn t with
    | Some c => (st, Returned c)
    | None => (set_handler (set_code_body 400 (err_body ("Unknown table: " +:+ t))) st,
               Panicking (PanicValue ("Unknown table: " +:+ t)))
    end.
Proof. unfold lookUpTableIdColumn, tableIdColumn. by repeat case_decide. Qed.

Lemma lookUpTableIdColumn_known t c (st : ReqState W) :
  tableIdColumn t = Some c -> lookUpTableIdColumn t st = (st, Returned c).
Proof.
  intros H. unfold tableIdColumn in H. unfold lookUpTableIdColumn.
  repeat case_decide; by simplify_eq.
Qed.

Lemma lookUpTableIdColumn_unknown_run t (st : ReqState W) :
  tableIdColumn t = None ->
  lookUpTableIdColumn t st = (fireErrResponse (A:=unit) 400 ("Unknown table: " +:+ t) ;;; go_ret "") st.
Proof.
  intros H. unfold tableIdColumn in H. unfold lookUpTableIdColumn.
  repeat case_decide; by simplify_eq.
Qed.
End TableProps.

(** The metadata query selects the single column [COLUMN_NAME], for
    every table name. *)
Lemma columnsQuery_one_column t : select_one_column (columnsQuery t) = Some "COLUMN_NAME".
Proof. reflexivity. Qed.
