(* ===== verification/Compose.v ===== *)
(** * Request bodies and the SQL fragments built from them

    - [queryParam] and [db_request] (WebService.go lines 30-41): the
      decoded JSON body of a POST or PUT;
    - [generateQueryItems] (lines 133-143), [generateComparisons]
      (lines 145-153) and [generateValuePairs] (lines 155-163).

    Ranging over a Go map visits its entries in an unspecified order,
    chosen anew at run time.  [MapIter] is that choice: the sequence of
    entries a [for k, v := range m] loop visits; [MapIterLaws] says it
    is a permutation of the entries.  Theorems that hold for every order
    are stated over an arbitrary [MapIter]. *)

From S2P Require Import Prelude GoStrings.

(** line 37-41 *)
Record queryParam := {
  ObjectName : string;
  Value : string;
  Comparison : string
}.

(** lines 30-35; a [map] field absent from the JSON body is a nil map,
    which ranges like the empty map. *)
Record db_request := {
  RequestType : string;
  Query : list queryParam;
  Create : gmap string string;
  Update : gmap string string
}.

Class MapIter := map_range : gmap string string -> list (string * string).

Class MapIterLaws `{MapIter} : Prop :=
  map_range_perm m : map_range m ≡ₚ map_to_list m.

(** One admissible order: the map's own enumeration. *)
#[export] Instance map_iter_enum : MapIter := map_to_list.
#[export] Instance map_iter_enum_laws : MapIterLaws.
Proof. intros m. reflexivity. Qed.

Section Generators.
Context `{!MapIter}.

(** lines 133-143 *)
Definition generateQueryItems (createMap : gmap string string) : string * string :=
  foldl (fun '(columns, values) '(k, v) => (columns +:+ k +:+ ",", values +:+ v +:+ ","))
        (""%string, ""%string) (map_range createMap).

(** lines 145-153 *)
Definition generateComparisons (queryParams : list queryParam) : string :=
  foldl (fun comps value =>
           comps +:+ "(" +:+ ObjectName value +:+ Comparison value +:+ "'" +:+
           Value value +:+ "'),")
        ""%string queryParams.

(** lines 155-163 *)
Definition generateValuePairs (updateMap : gmap string string) : string :=
  foldl (fun comps '(k, v) => comps +:+ "(" +:+ k +:+ "='" +:+ v +:+ "'),")
        ""%string (map_range updateMap).
End Generators.

(** ** The loops as concatenations *)

Section GeneratorProps.
Context `{!MapIter}.

Lemma generateQueryItems_loop (a b : string) l :
  foldl (fun '(columns, values) '(k, v) => (columns +:+ k +:+ ",", values +:+ v +:+ ","))
        (a, b) l =
    (a +:+ str_concat (map (fun kv => kv.1 +:+ ",") l),
     b +:+ str_concat (map (fun kv => kv.2 +:+ ",") l)).
Proof.
  revert a b. induction l as [|[k v] l IH]; intros a b; simpl; [by rewrite !string_app_nil_r|].
  by rewrite IH, !string_app_assoc.
Qed.

Lemma generateQueryItems_concat m :
  generateQueryItems m =
    (str_concat (map (fun kv => kv.1 +:+ ",") (map_range m)),
     str_concat (map (fun kv => kv.2 +:+ ",") (map_range m))).
Proof. unfold generateQueryItems. by rewrite generateQueryItems_loop. Qed.

Section Laws.
Context `{!MapIterLaws}.

(** C21. Whatever order Go ranges over the create map in, the INSERT's
    column list and value list, read back by splitting at commas, are
    the keys and the values of the same sequence of entries, which is
    a permutation of the map: every column is paired with its own
    value.  Both lists end in an empty item, the trailing comma. *)
Theorem generateQueryItems_aligned (m : gmap string string) :
  map_Forall (fun k v => count_sep ","%char k = 0%nat /\ count_sep ","%char v = 0%nat) m ->
  exists kvs, kvs ≡ₚ map_to_list m /\
    Split ","%char (generateQueryItems m).1 = map fst kvs ++ [""%string] /\
    Split ","%char (generateQueryItems m).2 = map snd kvs ++ [""%string].
Proof.
  intros Hm. exists (map_range m). split; [apply map_range_perm|].
  apply map_Forall_to_list in Hm. rewrite <- (map_range_perm m) in Hm.
  rewrite generateQueryItems_concat. simpl.
  rewrite <- (map_map fst (fun k => k +:+ ",")), <- (map_map snd (fun v => v +:+ ",")).
  split; apply Split_terminated; apply Forall_fmap; eapply Forall_impl; [exact Hm| |exact Hm|];
    intros [k v] [Hk Hv]; done.
Qed.
End Laws.
End GeneratorProps.
