(* ===== verification/Executor.v ===== *)
(** * Running a statement and shaping the success body

    - [executeQuery] (WebService.go lines 55-80): run the composed
      statement, read the *column names* of its result, fetch the
      table's "column names" with [getTableColumnNames], fire a 500 when
      the two lists differ in length, and otherwise answer 200 with the
      map [colNames[i] -> queryValues[i]];
    - [fill_body]: its [for index, colName := range colNames] loop, with
      the slice index [queryValues[index]] that panics when out of range;
    - [decodeJson] (lines 82-88): the body reader is given as what
      [json.Decoder.Decode] produces from it, a [db_request] or the
      decoder's error.

    The theorems: [fill_body] terminates, returning the copied map or
    panicking at the first missing index; the mismatch message's length
    bound; and, under [SqlLaws], when [executeQuery] succeeds and when it
    fails with the mismatch error. *)

From S2P Require Import Prelude GoStrings GoJson Utf8 HttpWriter SqlDb WebHandler Tables Compose.

Local Open Scope Z_scope.
Local Open Scope go_scope.

(** The request body, as the JSON decoder reads it. *)
Abbreviation request_body := (go_result db_request).

Section Executor.
Context {W : Type} `{!ResponseWriter W} `{!SqlDb}.

Local Abbreviation M := (GoM (ReqState W)).

(** lines 75-77 *)
Fixpoint fill_body (colNames queryValues : list string) (index : nat)
    (body : gmap string string) : M (gmap string string) :=
  match colNames with
  | [] => go_ret body
  | colName :: rest =>
      let! v := go_index queryValues index in
      fill_body rest queryValues (S index) (<[colName:=v]> body)
  end.

(** The message of line 72, [string(len(...))] being the rune with
    that code point, not its decimal text. *)
Definition mismatch_msg (queryValues colNames : list string) : string :=
  "DB response mismatch to table: expected " +:+ intstring (Z.of_nat (length queryValues)) +:+
  ", recieved " +:+ intstring (Z.of_nat (length colNames)).

(** lines 55-80 *)
Definition executeQuery (compostedQuery table : string) : M unit :=
  let! queryResp := db_Query compostedQuery in
  let! queryValues :=
    match queryResp with
    | QueryErr err =>
        fireErrResponse 500 ("Failed executing query: " +:+ compostedQuery +:+ ":" +:+ err)
    | QueryOk rows =>
        match rows with
        | ColsErr err => fireErrResponse 500 ("Failed extracting columns: " +:+ err)
        | ColsOk cols => go_ret cols
        end
    end in
  let! colNames := getTableColumnNames table in
  (if decide (length colNames <> length queryValues) then
     fireErrResponse 500 (mismatch_msg queryValues colNames)
   else go_ret tt) ;;;
  let! body := fill_body colNames queryValues 0 ∅ in
  setResponse 200 (GoStringMap body).

(** lines 82-88 *)
Definition decodeJson (body : request_body) : M db_request :=
  match body with
  | Ok t => go_ret t
  | Err err => fireErrResponse 400 ("Unable to parse body:" +:+ err)
  end.
End Executor.

Section ExecutorProps.
Context {W : Type} `{!ResponseWriter W} `{!SqlDb}.

(** Both statements succeed: the length check decides. *)
Lemma executeQuery_cols q t vals cols (st : ReqState W) :
  sql_query q = QueryOk (ColsOk vals) -> sql_query (columnsQuery t) = QueryOk (ColsOk cols) ->
  executeQuery q t st =
    let st1 := log_event (EvQuery (columnsQuery t)) (log_event (EvQuery q) st) in
    if decide (length cols <> length vals)
    then (set_handler (set_code_body 500 (err_body (mismatch_msg vals cols))) st1,
          Panicking (PanicValue (mismatch_msg vals cols)))
    else go_bind (fill_body cols vals 0 ∅) (fun body => setResponse 200 (GoStringMap body)) st1.
Proof.
  intros Hq Hc. unfold executeQuery, getTableColumnNames, db_Query. go_unfold.
  rewrite Hq, Hc. simpl. by case_decide.
Qed.

(** The map the copy loop builds from position [i] on. *)
Definition copied (b : gmap string string) (cols vals : list string) (i : nat) :=
  foldl (fun m '(k, v) => <[k:=v]> m) b (zip cols (drop i vals)).

(** C18. The copy loop of lines 75-77 always finishes: with a value
    for every column it returns the map of each column name to the
    value at its position (a later duplicate column overriding an
    earlier one), touching nothing else. *)
Theorem fill_body_total cols vals i b (st : ReqState W) :
  (i + length cols <= length vals)%nat ->
  fill_body cols vals i b st = (st, Returned (copied b cols vals i)).
Proof.
  unfold copied. revert i b. induction cols as [|c cols IH]; intros i b Hlen; [done|].
  simpl in Hlen. destruct (lookup_lt_is_Some_2 vals i) as [v Hv]; [lia|].
  cbn [fill_body]. unfold go_bind at 1. rewrite (go_index_lookup _ _ _ _ Hv).
  rewrite IH by lia. by rewrite (drop_S _ _ _ Hv).
Qed.

(** C19. When the values run out before the columns, the loop stops
    with Go's index-out-of-range panic at the first missing position,
    after copying nothing into the response. *)
Theorem fill_body_short cols vals i b (st : ReqState W) :
  (i <= length vals < i + length cols)%nat ->
  fill_body cols vals i b st = (st, Panicking (PanicIndex (length vals) (length vals))).
Proof.
  revert i b. induction cols as [|c cols IH]; intros i b Hlen; simpl in Hlen; [lia|].
  cbn [fill_body]. unfold go_bind at 1. destruct (decide (i = length vals)) as [->|Hi].
  - by rewrite go_index_oob.
  - destruct (lookup_lt_is_Some_2 vals i) as [v Hv]; [lia|].
    rewrite (go_index_lookup _ _ _ _ Hv). apply IH. lia.
Qed.

(** C24. Whatever the two counts, the mismatch message of line 72 is
    53 to 59 bytes long: each count is rendered by [string(int)] as one
    code point of one to four bytes (U+FFFD for a count that is not a
    valid code point), never as its decimal digits. *)
Theorem mismatch_msg_length vals cols :
  (53 <= String.length (mismatch_msg vals cols) <= 59)%nat.
Proof.
  unfold mismatch_msg, intstring. rewrite !string_length_app, !string_length_of_bytes.
  pose proof (proj2 (intstring_bytes_shape (Z.of_nat (length vals)))).
  pose proof (proj2 (intstring_bytes_shape (Z.of_nat (length cols)))).
  simpl. lia.
Qed.

Section Laws.
Context `{!SqlLaws}.

(** C4. A request succeeds only when the statement's result has
    exactly one column, and then its body is the one-entry map from
    "COLUMN_NAME" to the *name* of that column: the metadata query
    yields the column list [["COLUMN_NAME"]] (the names of its own
    result), and the loop copies result column names, not row
    values.  No success response carries data of a row. *)
Theorem executeQuery_success q t (st st' : ReqState W) :
  executeQuery q t st = (st', Returned tt) ->
  exists c, sql_query q = QueryOk (ColsOk [c]) /\
    handler st' = set_code_body 200 (GoStringMap {["COLUMN_NAME" := c]}) (handler st) /\
    db_trace st' = db_trace st ++ [EvQuery q; EvQuery (columnsQuery t)].
Proof.
  intros Hrun.
  destruct (sql_query q) as [[vals|e]|e] eqn:Hq;
    [|unfold executeQuery, db_Query in Hrun; go_unfold; rewrite Hq in Hrun; discriminate..].
  destruct (sql_query (columnsQuery t)) as [[cols|e]|e] eqn:Hc;
    [|unfold executeQuery, getTableColumnNames, db_Query in Hrun; go_unfold;
      rewrite Hq, Hc in Hrun; discriminate..].
  pose proof (sql_select_one_column _ _ _ (columnsQuery_one_column t) Hc) as ->.
  rewrite (executeQuery_cols q t vals ["COLUMN_NAME"]) in Hrun by done. simpl in Hrun.
  destruct vals as [|c [|c' vals]]; simpl in Hrun; [discriminate| |discriminate].
  injection Hrun as <-. exists c. split; [done|]. split; [done|].
  simpl. by rewrite <- app_assoc.
Qed.

(** C5. When the statement's result does not have exactly one
    column (every [select *] on a table of several columns, and every
    INSERT, UPDATE or DELETE, whose results have none), the request
    fails with 500 "DB response mismatch" after both statements ran:
    a write has then been executed although the client is told it
    failed. *)
Theorem executeQuery_column_mismatch q t vals cols (st : ReqState W) :
  sql_query q = QueryOk (ColsOk vals) -> length vals <> 1%nat ->
  sql_query (columnsQuery t) = QueryOk (ColsOk cols) ->
  executeQuery q t st =
    (set_handler (set_code_body 500 (err_body (mismatch_msg vals ["COLUMN_NAME"])))
       (log_event (EvQuery (columnsQuery t)) (log_event (EvQuery q) st)),
     Panicking (PanicValue (mismatch_msg vals ["COLUMN_NAME"]))).
Proof.
  intros Hq Hlen Hc.
  pose proof (sql_select_one_column _ _ _ (columnsQuery_one_column t) Hc) as ->.
  rewrite (executeQuery_cols q t vals ["COLUMN_NAME"]) by done. simpl.
  rewrite decide_True by (simpl; lia). done.
Qed.
End Laws.
End ExecutorProps.
