(* ===== verification/Handler.v ===== *)
(** * Routing and the four HTTP handlers

    - [handleGet], [handlePost], [handlePut], [handleDelete]
      (WebService.go lines 263-308): compose the statement and run it;
    - [parseRequest] (lines 197-232): open the connection, defer its
      [Close], dispatch on the method; the arguments [path[2]] are
      evaluated before the call, and may panic;
    - [Execute] (lines 172-186): split the path, check it, dispatch,
      send; a deferred [recover] sends the response of a panicking
      request;
    - [handleAllRoutes] (lines 49-52): a fresh handler per request. *)

From S2P Require Import Prelude GoStrings GoJson HttpWriter SqlDb WebHandler Tables Compose Executor.

Local Open Scope Z_scope.
Local Open Scope go_scope.

(** What the handler reads of an [*http.Request]. *)
Record http_request := {
  Method : string;
  URL_Path : string;
  Body : request_body
}.

Section Handlers.
Context {W : Type} `{!ResponseWriter W} `{!SqlDb} `{!MapIter}.

Local Abbreviation M := (GoM (ReqState W)).

(** lines 263-267 *)
Definition handleGet (table id : string) : M unit :=
  let! idColumn := lookUpTableIdColumn table in
  let compostedQuery := "select * from " +:+ table +:+ " where " +:+ idColumn +:+ "=" +:+ id +:+ ";" in
  executeQuery compostedQuery table.

(** lines 269-286 *)
Definition handlePost (body : request_body) (table : string) : M unit :=
  let! t := decodeJson body in
  let! compostedQuery :=
    if decide (RequestType t = "create") then
      let '(columns, values) := generateQueryItems (Create t) in
      go_ret ("insert into " +:+ table +:+ "(" +:+ columns +:+ ") values (" +:+ values +:+ ");")
    else if decide (RequestType t = "query") then
      let comparisons := generateComparisons (Query t) in
      go_ret ("select * from " +:+ table +:+ " where " +:+ comparisons +:+ ";")
    else fireErrResponse 400 ("Unsupported request type: " +:+ RequestType t) in
  executeQuery compostedQuery table.

(** lines 288-302 *)
Definition handlePut (body : request_body) (table id : string) : M unit :=
  let! idColumn := lookUpTableIdColumn table in
  let! t := decodeJson body in
  (if decide (RequestType t <> "update") then
     fireErrResponse 400 ("Unsupported request type: " +:+ RequestType t)
   else go_ret tt) ;;;
  let valuePairs := generateValuePairs (Update t) in
  let compostedQuery :=
    "update " +:+ table +:+ " set " +:+ valuePairs +:+ " where " +:+ idColumn +:+ "=" +:+ id +:+ ";" in
  executeQuery compostedQuery table.

(** lines 304-308 *)
Definition handleDelete (table id : string) : M unit :=
  let! idColumn := lookUpTableIdColumn table in
  let compostedQuery := "delete from " +:+ table +:+ " where " +:+ idColumn +:+ "='" +:+ id +:+ "';" in
  executeQuery compostedQuery table.

(** lines 211-231: the switch on the method. *)
Definition dispatch (path : list string) (request : http_request) (dbTable : string) : M unit :=
  if decide (Method request = "GET") then
    mandatoryPathLength path 2 ;;;
    let! id := go_index path 2 in
    handleGet dbTable id
  else if decide (Method request = "POST") then
    handlePost (Body request) dbTable
  else if decide (Method request = "PUT") then
    let! id := go_index path 2 in
    handlePut (Body request) dbTable id
  else if decide (Method request = "DELETE") then
    let! id := go_index path 2 in
    handleDelete dbTable id
  else fireErrResponse 400 ("Unsupported HTTP method: " +:+ Method request).

(** lines 197-232 *)
Definition parseRequest (path : list string) (request : http_request) : M unit :=
  let! dbTable := go_index path 1 in
  let! '(con, err) := sql_Open in
  go_defer (db_Close con)
    ((if err is Some _ then fireErrResponse 500 "Failed to open DB connection" else go_ret tt) ;;;
     dispatch path request dbTable).

(** lines 180-184: the work of [Execute] before its final
    [sendResponse]. *)
Definition processRequest (request : http_request) : M unit :=
  let path := Split "/" (URL_Path request) in
  mandatoryPathLength path 1 ;;;
  parseRequest path request.

(** lines 172-186 *)
Definition Execute (request : http_request) : M unit :=
  go_recover (processRequest request ;;; sendResponse) sendResponse.

(** The state of a fresh [WebHandler{writer: writer}]. *)
Definition initial_state (w : W) : ReqState W :=
  {| handler := {| body := GoNil; code := 0; writer := w |}; db_trace := [] |}.

(** lines 49-52 *)
Definition handleAllRoutes (w : W) (request : http_request) : ReqState W * outcome unit :=
  Execute request (initial_state w).
End Handlers.
