(* ===== verification/Effects.v ===== *)
(** * What request processing can change

    Before its final [sendResponse], the processing of a request changes
    its state in three ways only: [fireErrResponse] stores 400 or 500 with an
    [err_response] body, [executeQuery] stores 200 with a
    [map[string]string] body, and the database calls append events to
    the trace.  The writer is untouched: nothing is written before
    [sendResponse].

    [Section Frame] proves this once: any preorder [R] on states that
    those three updates respect is respected by [processRequest] on
    every exit path, panics included.  The frame properties used later
    are instances. *)

From S2P Require Import Prelude GoStrings GoJson HttpWriter SqlDb WebHandler Tables Compose Executor Handler.

Local Open Scope Z_scope.
Local Open Scope go_scope.

Section Frame.
Context {W : Type} `{!ResponseWriter W} `{!SqlDb} `{!MapIter}.
Context (R : ReqState W -> ReqState W -> Prop) `{!PreOrder R}.
Hypothesis R_fire :
  forall st c msg, c = 400 \/ c = 500 -> R st (set_handler (set_code_body c (err_body msg)) st).
Hypothesis R_success : forall st m, R st (set_handler (set_code_body 200 (GoStringMap m)) st).
Hypothesis R_query : forall st q, R st (log_event (EvQuery q) st).

Ltac pres :=
  repeat match goal with
  | |- preserves _ (go_bind _ _) => apply preserves_bind
  | |- preserves _ (go_defer _ _) => apply preserves_defer
  | |- preserves _ (go_modify _) => apply preserves_modify
  | |- preserves _ (match _ with _ => _ end) => case_match
  | |- preserves _ _ => solve [eauto with go_hints]
  | |- forall _, _ => intro
  | |- R _ _ => solve [eauto]
  | |- PreOrder _ => exact _
  end.

(** Every call site fires 400 or 500. *)
Lemma fireErrResponse_pres {A} c msg :
  c = 400 \/ c = 500 -> preserves R (fireErrResponse (W:=W) (A:=A) c msg).
Proof. intros Hc. unfold fireErrResponse. pres. Qed.
Hint Resolve fireErrResponse_pres : go_hints.

Lemma mandatoryPathLength_pres path n : preserves R (mandatoryPathLength (W:=W) path n).
Proof. unfold mandatoryPathLength. pres. Qed.

Lemma db_Query_pres q : preserves R (db_Query (W:=W) q).
Proof. unfold db_Query. pres. Qed.
Hint Resolve mandatoryPathLength_pres db_Query_pres : go_hints.

Lemma lookUpTableIdColumn_pres t : preserves R (lookUpTableIdColumn (W:=W) t).
Proof. unfold lookUpTableIdColumn. pres. Qed.

Lemma getTableColumnNames_pres t : preserves R (getTableColumnNames (W:=W) t).
Proof. unfold getTableColumnNames. pres. Qed.

Lemma fill_body_pres cols vals i m : preserves R (fill_body (W:=W) cols vals i m).
Proof. revert i m. induction cols; simpl; pres. Qed.

Lemma decodeJson_pres b : preserves R (decodeJson (W:=W) b).
Proof. unfold decodeJson. pres. Qed.
Hint Resolve lookUpTableIdColumn_pres getTableColumnNames_pres fill_body_pres
  decodeJson_pres : go_hints.

Lemma executeQuery_pres q t : preserves R (executeQuery (W:=W) q t).
Proof. unfold executeQuery, setResponse. pres. Qed.
Hint Resolve executeQuery_pres : go_hints.

Lemma dispatch_pres path req t : preserves R (dispatch (W:=W) path req t).
Proof.
  unfold dispatch, handleGet, handlePost, handlePut, handleDelete. pres.
Qed.
Hint Resolve dispatch_pres : go_hints.

(** The statements a handler runs are the only database events of
    [dispatch]; opening and closing are done around it. *)
Section Connection.
Hypothesis R_open : forall st, R st (log_event EvOpen st).
Hypothesis R_close : forall st, R st (log_event EvClose st).

Lemma sql_Open_pres : preserves R (sql_Open (W:=W)).
Proof. unfold sql_Open. pres. Qed.

Lemma db_Close_pres con : preserves R (db_Close (W:=W) con).
Proof. unfold db_Close. pres. Qed.
Hint Resolve sql_Open_pres db_Close_pres : go_hints.

(** Every run of [processRequest] relates its states by [R]. *)
Lemma processRequest_pres req : preserves R (processRequest (W:=W) req).
Proof. unfold processRequest, parseRequest. pres. Qed.
End Connection.
End Frame.
