(* ===== verification/Response.v ===== *)
(** * What the client receives

    [Execute] runs [sendResponse] exactly once, on the state the
    processing left, whether the processing returned or panicked, and
    no panic escapes it ([Execute_sends_once]).  Nothing is written
    before ([processRequest_keeps_writer]), the body it marshals is one
    Marshal accepts ([processRequest_body_marshals]: the fallback branch
    of [sendResponse] is dead), and, by the [ResponseWriter] contract,
    the status line is always 200 and the [Status-Code] header set after
    the write never reaches the client ([handleAllRoutes_observable]);
    its value [string(code)] decodes back to the code
    ([sendResponse_status_decodes]). *)

From S2P Require Import Prelude GoStrings GoJson Utf8 HttpWriter SqlDb WebHandler Tables Compose Executor Handler Effects.

Local Open Scope Z_scope.
Local Open Scope go_scope.

Section Response.
Context {W : Type} `{!ResponseWriter W} `{!SqlDb} `{!MapIter}.

(** The bytes [sendResponse] writes for a handler state. *)
Definition response_payload (h : WebHandler W) : string :=
  match marshal (body h) with
  | Ok s => s
  | Err e => marshal_failure_text e
  end.

(** The code [sendResponse] leaves in the handler. *)
Definition response_code (h : WebHandler W) : Z :=
  match marshal (body h) with
  | Ok _ => code h
  | Err _ => 500
  end.

Definition finish_handler (h : WebHandler W) : WebHandler W :=
  {| body := body h; code := response_code h;
     writer := rw_header_set HTTP_HDR_STATUS_CODE (intstring (response_code h))
                 (rw_header_set HTTP_HDR_CONTENT_TYPE VALUE_CONTENT_TYPE_JSON
                    (rw_write (response_payload h) (writer h))) |}.

Lemma sendResponse_run st :
  sendResponse st = (set_handler finish_handler st, Returned tt).
Proof.
  unfold sendResponse, finish_handler, response_payload, response_code,
    writer_write, writer_header_set. go_unfold.
  destruct st as [[b c w] tr]. unfold set_handler, on_writer, set_code. simpl.
  by destruct (marshal b).
Qed.

Lemma Execute_handler req (st : ReqState W) :
  handler (fst (Execute req st)) = finish_handler (handler (fst (processRequest req st))).
Proof.
  unfold Execute, go_recover, go_bind.
  destruct (processRequest req st) as [st1 [u|p]]; by rewrite sendResponse_run.
Qed.

(** C1. [Execute] sends the response exactly once: its result is the
    result of one [sendResponse] on the state in which processing
    stopped, on the normal path and on the panic path alike, and it
    always returns normally. *)
Theorem Execute_sends_once req (st : ReqState W) :
  Execute req st = (set_handler finish_handler (fst (processRequest req st)), Returned tt).
Proof.
  unfold Execute, go_recover, go_bind.
  destruct (processRequest req st) as [st1 [u|p]]; by rewrite sendResponse_run.
Qed.

(** ** Frame properties of processing *)

Definition same_writer (s s' : ReqState W) : Prop := writer (handler s') = writer (handler s).
#[local] Instance same_writer_preorder : PreOrder same_writer.
Proof. split; [by intros ?|intros ??? H1 H2; unfold same_writer in *; congruence]. Qed.

Lemma processRequest_keeps_writer req (st : ReqState W) :
  writer (handler (fst (processRequest req st))) = writer (handler st).
Proof. apply (processRequest_pres same_writer); done. Qed.

Definition body_stays_safe (s s' : ReqState W) : Prop :=
  json_safe (body (handler s)) = true -> json_safe (body (handler s')) = true.
#[local] Instance body_stays_safe_preorder : PreOrder body_stays_safe.
Proof. split; [intros ? Hs; exact Hs|intros x y z H1 H2 Hs; exact (H2 (H1 Hs))]. Qed.

Lemma processRequest_body_safe req (st : ReqState W) :
  json_safe (body (handler st)) = true ->
  json_safe (body (handler (fst (processRequest req st)))) = true.
Proof. apply (processRequest_pres body_stays_safe); intros; unfold body_stays_safe; simpl; auto. Qed.

(** C22. Marshal never fails on the body a request leaves behind, so
    the bytes written are that marshalled body and the code is the
    handler's own: the fallback branch of [sendResponse] (lines
    251-253, with its unterminated JSON text and its 500) is dead
    code. *)
Theorem processRequest_body_marshals (w : W) req :
  let h := handler (fst (processRequest req (initial_state w))) in
  exists s, marshal (body h) = Ok s /\ response_payload h = s /\ response_code h = code h.
Proof.
  intros h. destruct (marshal_safe (body h)) as [s Hs].
  - apply processRequest_body_safe. reflexivity.
  - exists s. unfold response_payload, response_code. by rewrite Hs.
Qed.

(** The writer a request leaves: the payload written, then the two
    headers set. *)
Lemma handleAllRoutes_writer (w : W) req :
  writer (handler (fst (handleAllRoutes w req))) =
  let h := handler (fst (processRequest req (initial_state w))) in
  rw_header_set HTTP_HDR_STATUS_CODE (intstring (response_code h))
    (rw_header_set HTTP_HDR_CONTENT_TYPE VALUE_CONTENT_TYPE_JSON (rw_write (response_payload h) w)).
Proof. unfold handleAllRoutes. rewrite Execute_handler. simpl. by rewrite processRequest_keeps_writer. Qed.

Section Observable.
Context `{!ResponseWriterLaws W}.

Lemma rw_header_set2_sent k1 v1 k2 v2 (x : W) :
  rw_sent_status (rw_header_set k1 v1 (rw_header_set k2 v2 x)) = rw_sent_status x /\
  rw_sent_header (rw_header_set k1 v1 (rw_header_set k2 v2 x)) = rw_sent_header x /\
  rw_sent_body (rw_header_set k1 v1 (rw_header_set k2 v2 x)) = rw_sent_body x.
Proof. destruct (rw_header_set_sent k1 v1 (rw_header_set k2 v2 x)) as (-> & -> & ->). apply rw_header_set_sent. Qed.

(** C2. What reaches the client: the status line is 200 whatever
    code the handler chose; the [Status-Code] header the handler
    sets is never sent (the sent value is whatever the header map
    held before the request); the body is the one payload. *)
Theorem handleAllRoutes_observable (w : W) req :
  rw_sent_status w = None ->
  rw_sent_status (writer (handler (fst (handleAllRoutes w req)))) = Some 200 /\
  (rw_sent_header (writer (handler (fst (handleAllRoutes w req)))) ≫= lookup HTTP_HDR_STATUS_CODE)
    = rw_header w !! HTTP_HDR_STATUS_CODE /\
  rw_sent_body (writer (handler (fst (handleAllRoutes w req)))) =
    rw_sent_body w +:+ response_payload (handler (fst (processRequest req (initial_state w)))).
Proof.
  intros Hfresh. rewrite handleAllRoutes_writer. cbv zeta.
  destruct (rw_header_set2_sent HTTP_HDR_STATUS_CODE (intstring (response_code
    (handler (fst (processRequest req (initial_state w)))))) HTTP_HDR_CONTENT_TYPE
    VALUE_CONTENT_TYPE_JSON (rw_write (response_payload
    (handler (fst (processRequest req (initial_state w))))) w)) as (-> & -> & ->).
  rewrite rw_write_status, Hfresh, rw_write_first_header, rw_write_body by done.
  done.
Qed.

Lemma sendResponse_header_code (st : ReqState W) :
  rw_header (writer (handler (fst (sendResponse st)))) !! HTTP_HDR_STATUS_CODE =
    Some (intstring (response_code (handler st))).
Proof. rewrite sendResponse_run. simpl. by rewrite rw_header_set_header, lookup_insert_eq. Qed.

(** C23. The [Status-Code] header that [sendResponse] puts in the
    header map holds [string(code)], the UTF-8 encoding of the code
    point [code], which is never the decimal text of the code. *)
Theorem sendResponse_status_header (st : ReqState W) :
  rw_header (writer (handler (fst (sendResponse st)))) !! HTTP_HDR_STATUS_CODE =
    Some (intstring (response_code (handler st))) /\
  intstring (response_code (handler st)) <> pretty (response_code (handler st)).
Proof. split; [apply sendResponse_header_code|apply intstring_not_decimal]. Qed.
End Observable.
End Response.
