(* ===== verification/Invariant.v ===== *)
(** * The handler's state invariant

    The [interface{}] field [body] and the [int] field [code] of a
    [WebHandler] (WebService.go lines 165-169) only ever hold three
    combinations: the zero handler of [handleAllRoutes] (nil body, code
    0), a success ([map[string]string] body, 200, set by [executeQuery]
    through [setResponse]) or an error ([err_response] body, 400 or
    500, set by [fireErrResponse]).  [handler_wf] checks this; it holds
    at every point of the processing of a request ([processRequest_wf],
    by the frame lemma of [Effects]) and of the handler [sendResponse]
    leaves ([handleAllRoutes_wf]). *)

From S2P Require Import Prelude GoStrings GoJson HttpWriter SqlDb WebHandler Tables Compose Executor Handler Effects Response.

Local Open Scope Z_scope.
Local Open Scope go_scope.

Section Invariant.
Context {W : Type} `{!ResponseWriter W} `{!SqlDb} `{!MapIter}.

(** The three shapes of a handler, as a check. *)
Definition handler_wf (h : WebHandler W) : bool :=
  match body h with
  | GoNil => code h =? 0
  | GoStringMap _ => code h =? 200
  | GoStruct [(f, GoString _)] => bool_decide (f = "Message") && ((code h =? 400) || (code h =? 500))
  | _ => false
  end.

Definition stays_wf (s s' : ReqState W) : Prop :=
  handler_wf (handler s) = true -> handler_wf (handler s') = true.

#[local] Instance stays_wf_preorder : PreOrder stays_wf.
Proof. split; [intros ? Hs; exact Hs|intros x y z H1 H2 Hx; exact (H2 (H1 Hx))]. Qed.

Lemma handler_wf_err c msg (h : WebHandler W) :
  c = 400 \/ c = 500 -> handler_wf (set_code_body c (err_body msg) h) = true.
Proof. intros [-> | ->]; reflexivity. Qed.

(** The three updates of [Effects] keep the shape. *)
Lemma processRequest_stays_wf req : preserves stays_wf (processRequest (W:=W) req).
Proof.
  apply processRequest_pres; [exact _|..]; unfold stays_wf; intros; simpl;
    first [by apply handler_wf_err | done].
Qed.

(** C7. Every state that the processing of a request passes through,
    on its normal path and on every panic path, keeps the handler in one
    of the three shapes: nil body with code 0, a string map with 200, or
    an [err_response] with 400 or 500. *)
Theorem processRequest_wf req (st : ReqState W) :
  handler_wf (handler st) = true -> handler_wf (handler (fst (processRequest req st))) = true.
Proof. apply processRequest_stays_wf. Qed.

(** C8. The handler [handleAllRoutes] finishes with has one of the
    three shapes, so the code [sendResponse] reports is 0, 200, 400 or
    500 and agrees with the body: a [map[string]string] exactly with
    200, an [err_response] exactly with 400 or 500. *)
Theorem handleAllRoutes_wf (w : W) req :
  handler_wf (handler (fst (handleAllRoutes w req))) = true.
Proof.
  unfold handleAllRoutes. rewrite Execute_handler.
  pose proof (processRequest_stays_wf req (initial_state w) eq_refl) as Hwf.
  destruct (marshal_safe _ (processRequest_body_safe req (initial_state w) eq_refl)) as [s Hs].
  unfold finish_handler, response_code. simpl. by rewrite Hs.
Qed.
End Invariant.
