(* ===== verification/Routing.v ===== *)
(** * Routing: what each kind of request does before [sendResponse]

    For a request whose path splits into [p0 :: t :: rest], with the
    connection opening normally, [processRequest] opens the connection,
    runs the method's handler and closes it ([parseRequest_opened]).
    The theorems below then say, method by method, which statement the
    handler runs or with which error it stops:

    - a path without a second piece is rejected before anything else;
    - GET on a known table runs [select * from t where key=id;];
    - DELETE runs [delete from t where key='id';];
    - GET/PUT/DELETE on an unknown table stop with a 400, no statement;
    - PUT and DELETE on a path without a third piece panic on the index
      [path[2]], leaving the handler's body and code as they were;
    - POST never looks the table up. *)

From S2P Require Import Prelude GoStrings GoJson HttpWriter SqlDb WebHandler Tables Compose Executor Handler.

Local Open Scope Z_scope.
Local Open Scope go_scope.

Section Routing.
Context {W : Type} `{!ResponseWriter W} `{!SqlDb} `{!MapIter}.

Local Abbreviation M := (GoM (ReqState W)).

(** An opened connection around [m], closed by the deferred call. *)
Definition with_connection (m : M unit) : M unit :=
  go_modify (log_event EvOpen) ;;; go_defer (db_Close (Some SqlConn)) m.

(** The outcome of [fireErrResponse code msg] from [st]: the error is
    recorded in the handler and the request unwinds with [msg]. *)
Definition aborted (c : Z) (msg : string) (st : ReqState W) : ReqState W * outcome unit :=
  (set_handler (set_code_body c (err_body msg)) st, Panicking (PanicValue msg)).

Lemma mandatoryPathLength_ok path n (st : ReqState W) :
  (n + 1 <= length path)%nat -> mandatoryPathLength path n st = (st, Returned tt).
Proof. intros Hlen. unfold mandatoryPathLength. rewrite decide_False by lia. done. Qed.

Lemma mandatoryPathLength_short path n (st : ReqState W) :
  (length path < n + 1)%nat ->
  mandatoryPathLength path n st = aborted 400 "Requested path is too short" st.
Proof. intros Hlen. unfold mandatoryPathLength. by rewrite decide_True. Qed.

(** C16. A URL path with no [/] splits into one piece: the request is
    answered 400 "Requested path is too short" before the database
    is touched. *)
Theorem processRequest_path_too_short req (st : ReqState W) :
  count_sep "/" (URL_Path req) = 0%nat ->
  processRequest req st = aborted 400 "Requested path is too short" st.
Proof.
  intros Hcount. unfold processRequest. unfold go_bind at 1.
  rewrite mandatoryPathLength_short; [done|]. rewrite Split_length. lia.
Qed.

Lemma parseRequest_opened p0 t rest req (st : ReqState W) :
  sql_open "mysql" DB_AUTH = None ->
  parseRequest (p0 :: t :: rest) req st = with_connection (dispatch (p0 :: t :: rest) req t) st.
Proof. intros Hopen. unfold parseRequest, sql_Open. rewrite Hopen. reflexivity. Qed.

Lemma processRequest_opened p0 t rest req :
  sql_open "mysql" DB_AUTH = None -> Split "/" (URL_Path req) = p0 :: t :: rest ->
  processRequest (W:=W) req ≃ with_connection (dispatch (p0 :: t :: rest) req t).
Proof.
  intros Hopen Hsplit st. unfold processRequest. rewrite Hsplit. unfold go_bind at 1.
  rewrite mandatoryPathLength_ok by (simpl; lia). by apply parseRequest_opened.
Qed.

(** C15. When [sql.Open] fails, the 500 "Failed to open DB connection"
    error is recorded, but the [Close] deferred on line 205, before the
    error check, runs on the nil handle: the request unwinds with a nil
    dereference panic instead of the error's own, and no connection
    event is recorded. *)
Theorem processRequest_open_failed req p0 t rest e (st : ReqState W) :
  sql_open "mysql" DB_AUTH = Some e -> Split "/" (URL_Path req) = p0 :: t :: rest ->
  processRequest req st =
    (fst (aborted 500 "Failed to open DB connection" st), Panicking PanicNilDeref).
Proof.
  intros Hopen Hsplit. unfold processRequest, parseRequest, sql_Open. rewrite Hsplit, Hopen.
  unfold go_bind at 1. rewrite mandatoryPathLength_ok by (simpl; lia). done.
Qed.

#[export] Instance with_connection_proper : Proper (go_eq ==> go_eq) with_connection.
Proof.
  intros m1 m2 Hm. unfold with_connection.
  apply go_bind_proper; [reflexivity|]. intros []. by apply go_defer_proper.
Qed.

(** ** The switch on the method *)

Lemma dispatch_get p0 t id more req :
  Method req = "GET" ->
  dispatch (W:=W) (p0 :: t :: id :: more) req t ≃ handleGet t id.
Proof.
  intros Hm st. unfold dispatch. rewrite Hm, decide_True by done.
  unfold go_bind at 1. rewrite mandatoryPathLength_ok by (simpl; lia). done.
Qed.

Lemma dispatch_get_short p0 t req :
  Method req = "GET" ->
  dispatch (W:=W) [p0; t] req t ≃ fireErrResponse 400 "Requested path is too short".
Proof.
  intros Hm st. unfold dispatch. rewrite Hm, decide_True by done.
  unfold go_bind at 1. rewrite mandatoryPathLength_short by (simpl; lia). done.
Qed.

Lemma dispatch_post path req t :
  Method req = "POST" -> dispatch (W:=W) path req t ≃ handlePost (Body req) t.
Proof. intros Hm st. unfold dispatch. by rewrite Hm, decide_False, decide_True. Qed.

Lemma dispatch_put p0 t id more req :
  Method req = "PUT" ->
  dispatch (W:=W) (p0 :: t :: id :: more) req t ≃ handlePut (Body req) t id.
Proof. intros Hm st. unfold dispatch. by rewrite Hm, 2!decide_False, decide_True. Qed.

Lemma dispatch_delete p0 t id more req :
  Method req = "DELETE" ->
  dispatch (W:=W) (p0 :: t :: id :: more) req t ≃ handleDelete t id.
Proof. intros Hm st. unfold dispatch. by rewrite Hm, 3!decide_False, decide_True. Qed.

Lemma dispatch_put_delete_short p0 t req :
  Method req = "PUT" \/ Method req = "DELETE" ->
  dispatch (W:=W) [p0; t] req t ≃ go_throw (PanicIndex 2 2).
Proof.
  intros [Hm|Hm] st; unfold dispatch; rewrite Hm.
  - by rewrite 2!decide_False, decide_True.
  - by rewrite 3!decide_False, decide_True.
Qed.

Lemma dispatch_other path req t :
  Method req ∉ ["GET"; "POST"; "PUT"; "DELETE"]%string ->
  dispatch (W:=W) path req t ≃ fireErrResponse 400 ("Unsupported HTTP method: " +:+ Method req).
Proof.
  intros Hm st. unfold dispatch.
  rewrite 4!decide_False; [done|..]; intros Heq; apply Hm; rewrite Heq; set_solver.
Qed.

(** ** The handlers on a known or unknown table *)

Lemma lookUpTableIdColumn_unknown t :
  tableIdColumn t = None ->
  lookUpTableIdColumn (W:=W) t ≃ fireErrResponse 400 ("Unknown table: " +:+ t).
Proof. intros Ht st. rewrite lookUpTableIdColumn_unknown_run by done. by go_unfold. Qed.

Lemma fireErrResponse_bind {A B} c msg (k : A -> M B) :
  go_bind (fireErrResponse c msg) k ≃ fireErrResponse c msg.
Proof. intros st. reflexivity. Qed.

Lemma handleGet_known t c id :
  tableIdColumn t = Some c ->
  handleGet (W:=W) t id ≃ executeQuery ("select * from " +:+ t +:+ " where " +:+ c +:+ "=" +:+ id +:+ ";") t.
Proof. intros Ht st. unfold handleGet, go_bind at 1. by rewrite (lookUpTableIdColumn_known t c). Qed.

Lemma handleDelete_known t c id :
  tableIdColumn t = Some c ->
  handleDelete (W:=W) t id ≃ executeQuery ("delete from " +:+ t +:+ " where " +:+ c +:+ "='" +:+ id +:+ "';") t.
Proof. intros Ht st. unfold handleDelete, go_bind at 1. by rewrite (lookUpTableIdColumn_known t c). Qed.

Lemma handlers_unknown t id b :
  tableIdColumn t = None ->
  handleGet (W:=W) t id ≃ fireErrResponse 400 ("Unknown table: " +:+ t) /\
  handlePut (W:=W) b t id ≃ fireErrResponse 400 ("Unknown table: " +:+ t) /\
  handleDelete (W:=W) t id ≃ fireErrResponse 400 ("Unknown table: " +:+ t).
Proof.
  intros Ht. unfold handleGet, handlePut, handleDelete.
  rewrite !lookUpTableIdColumn_unknown by done. split_and!; apply fireErrResponse_bind.
Qed.

(** ** Requests, method by method *)

(** C9. [GET /t/id] on a table of the mapping runs exactly the
    statement [select * from t where key=id;], with [id] spliced in
    unquoted, inside an opened and then closed connection. *)
Theorem processRequest_get req p0 t id more c :
  sql_open "mysql" DB_AUTH = None -> Method req = "GET" ->
  Split "/" (URL_Path req) = p0 :: t :: id :: more -> tableIdColumn t = Some c ->
  processRequest (W:=W) req ≃
    with_connection (executeQuery ("select * from " +:+ t +:+ " where " +:+ c +:+ "=" +:+ id +:+ ";") t).
Proof.
  intros Hopen Hm Hsplit Ht.
  by rewrite processRequest_opened, dispatch_get, handleGet_known.
Qed.

(** C10. [DELETE /t/id] on a table of the mapping runs exactly
    [delete from t where key='id';]. *)
Theorem processRequest_delete req p0 t id more c :
  sql_open "mysql" DB_AUTH = None -> Method req = "DELETE" ->
  Split "/" (URL_Path req) = p0 :: t :: id :: more -> tableIdColumn t = Some c ->
  processRequest (W:=W) req ≃
    with_connection (executeQuery ("delete from " +:+ t +:+ " where " +:+ c +:+ "='" +:+ id +:+ "';") t).
Proof.
  intros Hopen Hm Hsplit Ht.
  by rewrite processRequest_opened, dispatch_delete, handleDelete_known.
Qed.

(** C13. GET, PUT and DELETE on a table outside the mapping stop with a
    400 "Unknown table" error before any statement is run (for PUT,
    before the body is even decoded). *)
Theorem processRequest_unknown_table req p0 t id more :
  sql_open "mysql" DB_AUTH = None -> Method req ∈ ["GET"; "PUT"; "DELETE"]%string ->
  Split "/" (URL_Path req) = p0 :: t :: id :: more -> tableIdColumn t = None ->
  processRequest (W:=W) req ≃ with_connection (fireErrResponse 400 ("Unknown table: " +:+ t)).
Proof.
  intros Hopen Hm Hsplit Ht. rewrite processRequest_opened by done.
  destruct (handlers_unknown t id (Body req) Ht) as (Hg & Hp & Hd).
  apply list_elem_of_In in Hm. destruct Hm as [Hm|[Hm|[Hm|[]]]]; symmetry in Hm.
  - by rewrite dispatch_get, Hg.
  - by rewrite dispatch_put, Hp.
  - by rewrite dispatch_delete, Hd.
Qed.

(** C14. PUT and DELETE do not check that the path has a third piece:
    on [/t] the index [path[2]] panics, the connection is closed, and
    the handler's body and code are left as they were. *)
Theorem processRequest_put_delete_short req p0 t :
  sql_open "mysql" DB_AUTH = None -> Method req = "PUT" \/ Method req = "DELETE" ->
  Split "/" (URL_Path req) = [p0; t] ->
  processRequest (W:=W) req ≃ with_connection (go_throw (PanicIndex 2 2)).
Proof.
  intros Hopen Hm Hsplit. by rewrite processRequest_opened, dispatch_put_delete_short.
Qed.

(** C26. A method other than GET, POST, PUT and DELETE is answered
    400 "Unsupported HTTP method", after the connection was opened. *)
Theorem processRequest_other_method req p0 t rest :
  sql_open "mysql" DB_AUTH = None -> Method req ∉ ["GET"; "POST"; "PUT"; "DELETE"]%string ->
  Split "/" (URL_Path req) = p0 :: t :: rest ->
  processRequest (W:=W) req ≃
    with_connection (fireErrResponse 400 ("Unsupported HTTP method: " +:+ Method req)).
Proof. intros Hopen Hm Hsplit. by rewrite processRequest_opened, dispatch_other. Qed.

(** The statement a decoded POST body asks for, or its error. *)
Definition post_action (t : string) (r : db_request) : M unit :=
  if decide (RequestType r = "create") then
    executeQuery ("insert into " +:+ t +:+ "(" +:+ (generateQueryItems (Create r)).1 +:+
                  ") values (" +:+ (generateQueryItems (Create r)).2 +:+ ");") t
  else if decide (RequestType r = "query") then
    executeQuery ("select * from " +:+ t +:+ " where " +:+ generateComparisons (Query r) +:+ ";") t
  else fireErrResponse 400 ("Unsupported request type: " +:+ RequestType r).

(** C11. POST never consults the table mapping: for any table name,
    a decoded "create" or "query" body runs its INSERT or SELECT on
    that name; only an undecodable body or another request type is
    rejected (400). *)
Theorem processRequest_post req p0 t rest :
  sql_open "mysql" DB_AUTH = None -> Method req = "POST" ->
  Split "/" (URL_Path req) = p0 :: t :: rest ->
  processRequest (W:=W) req ≃
    with_connection (match Body req with
                     | Err e => fireErrResponse 400 ("Unable to parse body:" +:+ e)
                     | Ok r => post_action t r
                     end).
Proof.
  intros Hopen Hm Hsplit. rewrite processRequest_opened, dispatch_post by done.
  apply with_connection_proper. intros st. unfold handlePost, post_action, decodeJson.
  destruct (Body req) as [r|e]; [|done]. unfold go_bind at 1. simpl.
  repeat case_decide; try done. by destruct (generateQueryItems (Create r)).
Qed.

(** C12. PUT on a table of the mapping looks the key up first, then
    decodes the body, then insists on the "update" request type, and
    runs [update t set <pairs> where key=id;]. *)
Theorem processRequest_put req p0 t id more c :
  sql_open "mysql" DB_AUTH = None -> Method req = "PUT" ->
  Split "/" (URL_Path req) = p0 :: t :: id :: more -> tableIdColumn t = Some c ->
  processRequest (W:=W) req ≃
    with_connection (match Body req with
                     | Err e => fireErrResponse 400 ("Unable to parse body:" +:+ e)
                     | Ok r =>
                         if decide (RequestType r = "update") then
                           executeQuery ("update " +:+ t +:+ " set " +:+ generateValuePairs (Update r) +:+
                                         " where " +:+ c +:+ "=" +:+ id +:+ ";") t
                         else fireErrResponse 400 ("Unsupported request type: " +:+ RequestType r)
                     end).
Proof.
  intros Hopen Hm Hsplit Ht. rewrite processRequest_opened, dispatch_put by done.
  apply with_connection_proper. intros st. unfold handlePut, decodeJson.
  unfold go_bind at 1. rewrite (lookUpTableIdColumn_known t c) by done.
  destruct (Body req) as [r|e]; [|done]. go_unfold.
  repeat case_decide; simpl; first [done | tauto].
Qed.
(** Only the POST and PUT branches of the switch read the body. *)
Lemma dispatch_same_request path req1 req2 t :
  Method req1 = Method req2 -> Method req1 <> "POST" -> Method req1 <> "PUT" ->
  dispatch (W:=W) path req1 t = dispatch path req2 t.
Proof. intros Hm Hp Hu. unfold dispatch. rewrite <- Hm. by repeat case_decide. Qed.

(** C31. The handling of a request is a function of its method and
    path alone, unless the method is POST or PUT: two such requests
    with the same method and path have the same effect and outcome
    from every state, against every database, whatever their bodies.
    In particular the same GET issued twice composes the same
    statement (spec section 8, idempotence). *)
Theorem processRequest_path_determined req1 req2 :
  Method req1 = Method req2 -> URL_Path req1 = URL_Path req2 ->
  Method req1 <> "POST" -> Method req1 <> "PUT" ->
  processRequest (W:=W) req1 ≃ processRequest req2.
Proof.
  intros Hm Hpath Hp Hu st. unfold processRequest. rewrite <- Hpath.
  set (path := Split "/" (URL_Path req1)). unfold go_bind.
  destruct (mandatoryPathLength path 1 st) as [st1 [[]|e]]; [|done].
  unfold parseRequest, go_bind. destruct (go_index path 1 st1) as [st2 [t|e]]; [|done].
  by rewrite (dispatch_same_request path req1 req2 t).
Qed.
End Routing.
