(* ===== verification/Spec.v ===== *)
(** * Routing as a pure decision, and the handler as its refinement

    The spec (sections 4.1-4.4) describes what a request comes to as a
    decision on the request alone: reject it with a code and message,
    or compose one statement and hand it to the executor.  [Spec.route]
    is that decision, a pure function of the split path, the request and
    the table name, with no state, no panics and no database; it keeps
    the two behaviours of the code the spec does not describe (the
    [path[2]] index panic of PUT and DELETE, and the order in which PUT
    checks the table before the body).  [Spec.processRequest_spec] runs
    the decision: the path check, the connection, then the plan.

    [processRequest_refines] shows that the handler's [processRequest]
    (WebService.go lines 180-184 with [parseRequest], [dispatch] and the
    four handlers) behaves exactly as this specification on every
    request, state and database. *)

From S2P Require Import Prelude GoStrings GoJson HttpWriter SqlDb WebHandler Tables Compose Executor Handler Routing.

Local Open Scope Z_scope.
Local Open Scope go_scope.

Module Spec.

(** What a request comes to, once the connection is open. *)
Inductive plan : Type :=
| Reject (code : Z) (msg : string)
| IndexPanic (i len : nat)
| Run (stmt table : string).

Section Route.
Context `{!MapIter}.

Definition unsupported_type (r : db_request) : plan :=
  Reject 400 ("Unsupported request type: " +:+ RequestType r).

Definition compose_post (t : string) (r : db_request) : plan :=
  if decide (RequestType r = "create") then
    Run ("insert into " +:+ t +:+ "(" +:+ (generateQueryItems (Create r)).1 +:+ ") values (" +:+
         (generateQueryItems (Create r)).2 +:+ ");") t
  else if decide (RequestType r = "query") then
    Run ("select * from " +:+ t +:+ " where " +:+ generateComparisons (Query r) +:+ ";") t
  else unsupported_type r.

Definition compose_put (t key id : string) (r : db_request) : plan :=
  if decide (RequestType r = "update") then
    Run ("update " +:+ t +:+ " set " +:+ generateValuePairs (Update r) +:+ " where " +:+ key +:+
         "=" +:+ id +:+ ";") t
  else unsupported_type r.

Definition with_body (b : request_body) (k : db_request -> plan) : plan :=
  match b with
  | Err e => Reject 400 ("Unable to parse body:" +:+ e)
  | Ok r => k r
  end.

Definition with_key (t : string) (k : string -> plan) : plan :=
  match tableIdColumn t with
  | None => Reject 400 ("Unknown table: " +:+ t)
  | Some key => k key
  end.

Definition route (path : list string) (req : http_request) (t : string) : plan :=
  if decide (Method req = "GET") then
    match path !! 2%nat with
    | None => Reject 400 "Requested path is too short"
    | Some id => with_key t (fun key =>
                   Run ("select * from " +:+ t +:+ " where " +:+ key +:+ "=" +:+ id +:+ ";") t)
    end
  else if decide (Method req = "POST") then
    with_body (Body req) (compose_post t)
  else if decide (Method req = "PUT") then
    match path !! 2%nat with
    | None => IndexPanic 2 (length path)
    | Some id => with_key t (fun key => with_body (Body req) (compose_put t key id))
    end
  else if decide (Method req = "DELETE") then
    match path !! 2%nat with
    | None => IndexPanic 2 (length path)
    | Some id => with_key t (fun key =>
                   Run ("delete from " +:+ t +:+ " where " +:+ key +:+ "='" +:+ id +:+ "';") t)
    end
  else Reject 400 ("Unsupported HTTP method: " +:+ Method req).
End Route.

Section Run.
Context {W : Type} `{!ResponseWriter W} `{!SqlDb} `{!MapIter}.

Local Abbreviation M := (GoM (ReqState W)).

Definition run_plan (p : plan) : M unit :=
  match p with
  | Reject c msg => fireErrResponse c msg
  | IndexPanic i len => go_throw (PanicIndex i len)
  | Run q t => executeQuery q t
  end.

(** A failed [sql.Open] records its 500 error; the deferred [Close]
    on the nil handle then panics with a nil dereference. *)
Definition open_failed : M unit :=
  go_modify (set_handler (set_code_body 500 (err_body "Failed to open DB connection"))) ;;;
  go_throw PanicNilDeref.

Definition processRequest_spec (req : http_request) : M unit :=
  match Split "/" (URL_Path req) with
  | (_ :: t :: _) as path =>
      match sql_open "mysql" DB_AUTH with
      | None => with_connection (run_plan (route path req t))
      | Some _ => open_failed
      end
  | _ => fireErrResponse 400 "Requested path is too short"
  end.
End Run.
End Spec.

(** ** Refinement *)

Section Refinement.
Context {W : Type} `{!ResponseWriter W} `{!SqlDb} `{!MapIter}.

Lemma handlePost_refines b t :
  handlePost (W:=W) b t ≃ Spec.run_plan (Spec.with_body b (Spec.compose_post t)).
Proof.
  intros st. unfold handlePost, decodeJson, Spec.with_body, Spec.compose_post.
  destruct b as [r|e]; [|done]. unfold go_bind at 1. simpl.
  repeat case_decide; try done. by destruct (generateQueryItems (Create r)).
Qed.

Lemma handlePut_refines b t id :
  handlePut (W:=W) b t id ≃
    Spec.run_plan (Spec.with_key t (fun key => Spec.with_body b (Spec.compose_put t key id))).
Proof.
  unfold Spec.with_key. destruct (tableIdColumn t) as [key|] eqn:Ht.
  - intros st. unfold handlePut, decodeJson, Spec.with_body, Spec.compose_put.
    unfold go_bind at 1. rewrite (lookUpTableIdColumn_known t key) by done.
    destruct b as [r|e]; [|done]. go_unfold. repeat case_decide; simpl; first [done | tauto].
  - apply (handlers_unknown t id b Ht).
Qed.

Lemma dispatch_refines p0 t rest req :
  dispatch (W:=W) (p0 :: t :: rest) req t ≃ Spec.run_plan (Spec.route (p0 :: t :: rest) req t).
Proof.
  unfold Spec.route. destruct (decide (Method req = "GET")) as [Hg|Hg].
  { destruct rest as [|id more]; [by apply dispatch_get_short|]. simpl.
    rewrite dispatch_get by done. unfold Spec.with_key.
    destruct (tableIdColumn t) as [key|] eqn:Ht;
      [by apply handleGet_known|apply (handlers_unknown t id (Body req) Ht)]. }
  destruct (decide (Method req = "POST")) as [Hp|Hp].
  { rewrite dispatch_post by done. apply handlePost_refines. }
  destruct (decide (Method req = "PUT")) as [Hu|Hu].
  { destruct rest as [|id more]; [by apply dispatch_put_delete_short; left|]. simpl.
    rewrite dispatch_put by done. apply handlePut_refines. }
  destruct (decide (Method req = "DELETE")) as [Hd|Hd].
  { destruct rest as [|id more]; [by apply dispatch_put_delete_short; right|]. simpl.
    rewrite dispatch_delete by done. unfold Spec.with_key.
    destruct (tableIdColumn t) as [key|] eqn:Ht;
      [by apply handleDelete_known|apply (handlers_unknown t id (Body req) Ht)]. }
  apply dispatch_other. set_solver.
Qed.

(** C3. The handler implements the specification: on every request,
    from every state and against every database, [processRequest]
    (path split and check, [sql.Open] with its deferred [Close], the
    method switch and the four handlers) has the effect and outcome of
    [Spec.processRequest_spec], which decides the statement, or the
    rejection, from the request alone by [Spec.route]. *)
Theorem processRequest_refines req :
  processRequest (W:=W) req ≃ Spec.processRequest_spec req.
Proof.
  unfold Spec.processRequest_spec.
  destruct (Split "/" (URL_Path req)) as [|p0 [|t rest]] eqn:Hsplit.
  - by destruct (Split_not_nil "/" (URL_Path req)).
  - intros st. unfold processRequest. rewrite Hsplit. unfold go_bind at 1.
    by rewrite mandatoryPathLength_short by (simpl; lia).
  - destruct (sql_open "mysql" DB_AUTH) as [e|] eqn:Hopen.
    + intros st. unfold processRequest, parseRequest, sql_Open. rewrite Hsplit, Hopen.
      unfold go_bind at 1. rewrite mandatoryPathLength_ok by (simpl; lia). done.
    + rewrite processRequest_opened by done. apply with_connection_proper, dispatch_refines.
Qed.
End Refinement.

