(* ===== verification/Server.v ===== *)
(** * The server [main] starts: net/http's [DefaultServeMux]

    [main] (WebService.go lines 43-47) registers [handleAllRoutes] for
    the pattern ["/"] with [http.HandleFunc] and serves
    [http.ListenAndServe(IP_PORT, nil)], i.e. through
    [DefaultServeMux].  Before a request reaches [handleAllRoutes] the
    mux ([ServeMux.ServeHTTP], [Handler], [match] of the Go release this
    program was written for, before pattern wildcards) decides what
    answers it:
    - the asterisk request ([RequestURI] "*", whose path is "*") gets a
      400 Bad Request;
    - for every method but CONNECT, a path that [cleanPath] changes
      ([path.Clean] plus the trailing slash) gets a 301 redirect to the
      cleaned path;
    - otherwise the longest registered pattern matching the path answers,
      or 404 Not Found when none does.
    This is library code (net/http, path), modelled so that the composition
    with the program can be stated; the redirect's URL is its path (the
    query and host of the request are not modelled).  The mapped
    definitions here are [handleAllRoutes_fn], the handler [main]
    registers, and [root_mux], the mux it registers it on.  The theorems:
    the dispatch of [root_mux] ([serve_root]), and that a served request
    passes the first path-length check ([served_path_long_enough]). *)

From S2P Require Import Prelude GoStrings GoJson HttpWriter SqlDb WebHandler Tables Compose Executor Handler Routing.

Local Open Scope Z_scope.

(** ** [path.Clean] on a rooted path, and the mux's [cleanPath] *)

Definition clean_step (stack : list string) (e : string) : list string :=
  if decide (e = "") then stack
  else if decide (e = ".") then stack
  else if decide (e = "..") then tail stack
  else e :: stack.

(** The elements [path.Clean] keeps, in order. *)
Definition clean_elems (es : list string) : list string := rev (foldl clean_step [] es).

Definition path_Clean_rooted (p : string) : string :=
  "/" +:+ String.concat "/" (clean_elems (Split "/" p)).

(** [p[len(p)-1]], when [p] is not empty. *)
Fixpoint last_char (p : string) : option ascii :=
  match p with
  | EmptyString => None
  | String c EmptyString => Some c
  | String _ s => last_char s
  end.

Definition cleanPath (p : string) : string :=
  match p with
  | EmptyString => "/"
  | String c _ =>
      let p := if decide (c = "/"%char) then p else String "/" p in
      let np := path_Clean_rooted p in
      if decide (last_char p = Some "/"%char /\ np <> "/") then np +:+ "/" else np
  end.

(** ** The mux *)

(** A [Handler] as the program uses it: what it does to the writer. *)
Definition handler_func (W : Type) : Type := W -> http_request -> W.

Inductive mux_entry (W : Type) : Type :=
| MuxHandler (h : handler_func W)       (* registered by Handle/HandleFunc *)
| MuxRedirect (url : string).           (* the implicit /tree -> /tree/ redirect *)
Arguments MuxHandler {W} h.
Arguments MuxRedirect {W} url.

Record ServeMux (W : Type) := { mux_m : gmap string (mux_entry W) }.
Arguments mux_m {W}.

(** What answers a request. *)
Inductive reply (W : Type) : Type :=
| Served (w : W)
| Redirect (url : string)
| NotFound
| BadRequest.
Arguments Served {W} w.
Arguments Redirect {W} url.
Arguments NotFound {W}.
Arguments BadRequest {W}.

Section Mux.
Context {W : Type}.

Definition DefaultServeMux : ServeMux W := {| mux_m := ∅ |}.

Definition explicit (e : option (mux_entry W)) : bool :=
  if e is Some (MuxHandler _) then true else false.

(** [ServeMux.Handle]: [None] where Go panics (an empty pattern, a
    second registration of a pattern); a pattern ending in a slash also
    gets the implicit redirect of the pattern without it.  All patterns
    here start with a slash (no host patterns). *)
Definition Handle (pattern : string) (h : handler_func W) (mux : ServeMux W) : option (ServeMux W) :=
  if decide (pattern = "") then None
  else if explicit (mux_m mux !! pattern) then None
  else
    let m := <[pattern := MuxHandler h]> (mux_m mux) in
    let n := String.length pattern in
    let short := String.substring 0 (n - 1) pattern in
    if bool_decide (last_char pattern = Some "/"%char) && negb (explicit (m !! short))
    then Some {| mux_m := <[short := MuxRedirect pattern]> m |}
    else Some {| mux_m := m |}.

(** [http.HandleFunc] on a mux. *)
Definition HandleFunc (pattern : string) (h : handler_func W) (mux : ServeMux W) : option (ServeMux W) :=
  Handle pattern h mux.

Definition pathMatch (pattern path : string) : bool :=
  match last_char pattern with
  | None => false
  | Some c =>
      if decide (c = "/"%char) then String.prefix pattern path
      else bool_decide (pattern = path)
  end.

(** [ServeMux.match]: the entry of the longest matching pattern. *)
Definition mux_match (mux : ServeMux W) (path : string) : option (mux_entry W) :=
  snd (foldl (fun '(n, best) '(k, v) =>
                if pathMatch k path && (if best is None then true else bool_decide (n < String.length k)%nat)
                then (String.length k, Some v) else (n, best))
             (0%nat, None) (map_to_list (mux_m mux))).

Definition run_entry (e : option (mux_entry W)) (w : W) (req : http_request) : reply W :=
  match e with
  | Some (MuxHandler h) => Served (h w req)
  | Some (MuxRedirect url) => Redirect url
  | None => NotFound
  end.

(** [ServeMux.ServeHTTP] with [ServeMux.Handler]. *)
Definition serve_request (mux : ServeMux W) (w : W) (req : http_request) : reply W :=
  if decide (URL_Path req = "*") then BadRequest
  else if decide (Method req <> "CONNECT" /\ cleanPath (URL_Path req) <> URL_Path req)
  then Redirect (cleanPath (URL_Path req))
  else run_entry (mux_match mux (URL_Path req)) w req.
End Mux.

(** ** What [main] registers *)

Section Registered.
Context {W : Type} `{!ResponseWriter W} `{!SqlDb} `{!MapIter}.

(** line 45: [handleAllRoutes] as a [HandlerFunc]: what it leaves in the
    writer. *)
Definition handleAllRoutes_fn : handler_func W :=
  fun w req => writer (handler (fst (handleAllRoutes w req))).

(** The mux after line 45: the handler on ["/"], and the implicit
    redirect entry for [""] that [Handle] adds (no path matches it). *)
Definition root_mux : ServeMux W :=
  {| mux_m := <["" := MuxRedirect "/"]> (<["/" := MuxHandler handleAllRoutes_fn]> ∅) |}.
End Registered.


(** ** What the server does with a request *)

Section Served.
Context {W : Type} `{!ResponseWriter W} `{!SqlDb} `{!MapIter}.

Lemma root_mux_list :
  map_to_list (mux_m (root_mux (W:=W))) = [("/", MuxHandler handleAllRoutes_fn); ("", MuxRedirect "/")].
Proof. reflexivity. Qed.

(** Only ["/"] matches, and it matches every rooted path. *)
Lemma mux_match_root path :
  mux_match (root_mux (W:=W)) path = if String.prefix "/" path then Some (MuxHandler handleAllRoutes_fn) else None.
Proof. unfold mux_match. rewrite root_mux_list. cbn -[String.prefix]. by destruct (String.prefix "/" path). Qed.

Lemma prefix_slash_count p : String.prefix "/" p = true -> (1 <= count_sep "/" p)%nat.
Proof.
  destruct p as [|c p]; [done|]. cbn [String.prefix count_sep]. destruct (ascii_dec "/" c) as [<-|]; [|done].
  intros _. case_decide; [lia|done].
Qed.

(** C28. The server's dispatch: the asterisk request gets 400, a request
    (other than CONNECT) whose path [cleanPath] changes gets a 301 to the
    cleaned path, a rooted path is served by [handleAllRoutes], and any
    other path gets 404 from the mux that [main] registers. *)
Theorem serve_root (w : W) req :
  serve_request root_mux w req =
  if decide (URL_Path req = "*") then BadRequest
  else if decide (Method req <> "CONNECT" /\ cleanPath (URL_Path req) <> URL_Path req)
  then Redirect (cleanPath (URL_Path req))
  else if String.prefix "/" (URL_Path req) then Served (handleAllRoutes_fn w req)
  else NotFound.
Proof.
  unfold serve_request. rewrite mux_match_root.
  by destruct (String.prefix "/" (URL_Path req)).
Qed.

(** C29. A request the mux hands to [handleAllRoutes] has a path of at
    least two ['/']-separated pieces, so the first [mandatoryPathLength]
    check of [processRequest] passes: its "Requested path is too short"
    branch is unreachable through the server. *)
Theorem served_path_long_enough (w : W) req w' (st : ReqState W) :
  serve_request root_mux w req = Served w' ->
  w' = handleAllRoutes_fn w req /\
  mandatoryPathLength (Split "/" (URL_Path req)) 1 st = (st, Returned tt).
Proof.
  rewrite serve_root. intros Hs. repeat case_decide; try done.
  destruct (String.prefix "/" (URL_Path req)) eqn:Hp; [|done]. injection Hs as <-.
  split; [done|]. apply mandatoryPathLength_ok. rewrite Split_length.
  pose proof (prefix_slash_count _ Hp). lia.
Qed.

End Served.
