(* ===== verification/Main.v ===== *)
(** * [main]: start, register, listen, and serve forever

    [main] (WebService.go lines 43-47) prints a banner, registers
    [handleAllRoutes] on [DefaultServeMux] for the pattern ["/"] and
    calls [http.ListenAndServe(IP_PORT, nil)], whose error it ignores.
    [ListenAndServe] never returns once it listens: it accepts
    connections and answers each request through the mux, forever.  The
    program is an interaction tree over [serverE]: printing, listening,
    accepting a request (with the writer of its connection) and
    responding to it; the serving loop is [ITree.iter].  Requests are
    served one after another: each gets a fresh [WebHandler] and shares
    nothing with the others but the external database, so the server's
    concurrency is not observable in this model.  Accept errors are not
    modelled.

    [main_liveness] is the liveness property of the server: after the
    banner and a successful listen, every request it accepts is answered,
    with exactly the mux's reply for that request, before the next one is
    accepted, and it never stops doing so.  It is a coinductive property
    over the infinite tree, proved with Paco. *)

From S2P Require Import Prelude GoStrings GoJson HttpWriter SqlDb WebHandler Tables Compose Executor Handler Server.
From ITree Require Import ITree ITreeFacts.
From Paco Require Import paco.

(** The line feed of ["Starting service\n"]. *)
Definition newline : string := String "010"%char EmptyString.

(** The interactions of the server process. *)
Variant serverE (W : Type) : Type -> Type :=
| Print (msg : string) : serverE W unit
| Listen (addr : string) : serverE W (option string)
| Accept : serverE W (W * http_request)
| Respond (req : http_request) (r : reply W) : serverE W unit
| Crash (msg : string) : serverE W void.
Arguments Print {W} msg.
Arguments Listen {W} addr.
Arguments Accept {W}.
Arguments Respond {W} req r.
Arguments Crash {W} msg.

Section Main.
Context {W : Type} `{!ResponseWriter W} `{!SqlDb} `{!MapIter}.

Local Abbreviation E := (serverE W).

(** [Server.Serve]'s loop: accept, answer through the mux, again. *)
Definition serve_loop {R} (mux : ServeMux W) : itree E R :=
  ITree.iter (fun _ : unit =>
    ITree.bind (ITree.trigger Accept) (fun wr : W * http_request =>
      ITree.bind (ITree.trigger (Respond wr.2 (serve_request mux wr.1 wr.2)))
        (fun _ => Ret (inl tt)))) tt.

(** [http.ListenAndServe]: the listen error, or serving forever. *)
Definition ListenAndServe (addr : string) (mux : ServeMux W) : itree E (option string) :=
  ITree.bind (ITree.trigger (Listen addr)) (fun err =>
    match err with
    | Some e => Ret (Some e)
    | None => serve_loop mux
    end).

(** line 45 on the empty [DefaultServeMux]. *)
Definition registered : option (ServeMux W) :=
  HandleFunc "/" handleAllRoutes_fn DefaultServeMux.

(** lines 43-47; a panic of [HandleFunc] would crash the process. *)
Definition main : itree E unit :=
  ITree.bind (ITree.trigger (Print ("Starting service" +:+ newline))) (fun _ =>
    match registered with
    | None => ITree.bind (ITree.trigger (Crash "http: invalid pattern")) (fun v : void => match v with end)
    | Some mux => ITree.bind (ListenAndServe IP_PORT mux) (fun _ => Ret tt)
    end).

End Main.

(** ** Answering every request *)

Section Answers.
Context {W : Type} (mux : ServeMux W).

Local Abbreviation E := (serverE W).

(** The next event after accepting [req] on [w] is its answer. *)
Definition responds {R} (r : itree E R -> Prop) (w : W) (req : http_request) (t : itree E R) : Prop :=
  exists k, observe t = VisF (Respond req (serve_request mux w req)) k /\ forall u, r (k u).

Inductive answersF {R} (r : itree E R -> Prop) : itree' E R -> Prop :=
| answers_tau t : r t -> answersF r (TauF t)
| answers_accept (k : W * http_request -> itree E R) :
    (forall w req, responds r w req (k (w, req))) -> answersF r (VisF Accept k).

Definition answers_gen {R} (r : itree E R -> Prop) (t : itree E R) : Prop := answersF r (observe t).

Lemma answers_gen_mon {R} : monotone1 (@answers_gen R).
Proof.
  intros t r r' H LE. unfold answers_gen in *.
  destruct H as [t' Ht|k Hk]; constructor; [auto|].
  intros w req. destruct (Hk w req) as (k' & Hobs & Hr). exists k'. split; auto.
Qed.
#[local] Hint Resolve answers_gen_mon : paco.

(** The tree never stops, never does anything but accept and answer,
    and answers each accepted request right after accepting it. *)
Definition answers {R} (t : itree E R) : Prop := paco1 answers_gen bot1 t.

Lemma serve_loop_answers {R} : answers (serve_loop (R:=R) mux).
Proof.
  pcofix CIH. pfold. unfold answers_gen. cbn. constructor. intros w req.
  unfold responds. cbn. eexists. split; [reflexivity|]. intros []. left.
  pfold. unfold answers_gen. cbn. constructor. right. apply CIH.
Qed.

(** Answering is kept by whatever would run after the tree. *)
Lemma answers_bind {R S} (t : itree E R) (k : R -> itree E S) :
  answers t -> answers (ITree.bind t k).
Proof.
  revert t. pcofix CIH. intros t Ht. punfold Ht. unfold answers_gen in Ht.
  pfold. unfold answers_gen. rewrite observe_bind.
  destruct Ht as [t' Ht'|k' Hk'].
  - constructor. right. apply CIH. by destruct Ht' as [Ht'|[]].
  - constructor. intros w req. destruct (Hk' w req) as (k'' & Hobs & Hr).
    exists (fun u => ITree.bind (k'' u) k). split.
    + by rewrite observe_bind, Hobs.
    + intros u. right. apply CIH. by destruct (Hr u) as [H|[]].
Qed.

Lemma answers_observe {R} (t t' : itree E R) :
  observe t = observe t' -> answers t' -> answers t.
Proof. intros Heq H. punfold H. pfold. unfold answers_gen in *. by rewrite Heq. Qed.
End Answers.

Section Liveness.
Context {W : Type} `{!ResponseWriter W} `{!SqlDb} `{!MapIter}.

Lemma registered_root : registered (W:=W) = Some root_mux.
Proof. reflexivity. Qed.

(** C27. The server [main] starts is live: it prints its banner, then
    listens on [IP_PORT]; if listening fails it returns, and otherwise it
    serves forever, answering every request it accepts, before accepting
    the next, with the reply of the mux that routes ["/"] to
    [handleAllRoutes]. *)
Theorem main_liveness :
  exists k1 k2,
    observe (main (W:=W)) = VisF (Print ("Starting service" +:+ newline)) k1 /\
    observe (k1 tt) = VisF (Listen IP_PORT) k2 /\
    (forall e, observe (k2 (Some e)) = RetF tt) /\
    answers root_mux (k2 None).
Proof.
  do 2 eexists. split; [unfold main; cbn; reflexivity|]. cbn. rewrite registered_root.
  split; [unfold ListenAndServe; cbn; reflexivity|].
  split; [done|]. cbn. apply answers_bind.
  apply (answers_observe _ _ (serve_loop root_mux)); [reflexivity|apply serve_loop_answers].
Qed.
End Liveness.
