(* ===== verification/Service.v ===== *)
(** * The service as its clients see it

    The router of [Server] and the handler of [Handler] composed: what
    a client reads off its connection for a request to the server that
    [main] starts.  [client_view] is what a client observes (the mux's
    own answers, or a status line and body), [expected_view] the
    contract of the whole service stated without the mux or the
    writer, and [service_refines] shows that routing through
    [root_mux] and writing through any [ResponseWriter] that obeys
    [ResponseWriterLaws] delivers exactly that view on a fresh
    connection. *)

From S2P Require Import Prelude GoStrings GoJson HttpWriter SqlDb WebHandler Tables Compose Executor Handler Response Server.

Local Open Scope Z_scope.

(** What a client reads: the mux's 400, 301 (with its Location) and
    404, or the status line and the body bytes the program wrote. *)
Inductive client_view : Type :=
| ViewBadRequest
| ViewRedirect (location : string)
| ViewNotFound
| ViewResponse (status : option Z) (body : string).

Section Service.
Context {W : Type} `{!ResponseWriter W} `{!SqlDb} `{!MapIter}.

Definition view_of (r : reply W) : client_view :=
  match r with
  | BadRequest => ViewBadRequest
  | Redirect url => ViewRedirect url
  | NotFound => ViewNotFound
  | Served w' => ViewResponse (rw_sent_status w') (rw_sent_body w')
  end.

(** The contract: the mux's decision on the path, then status 200 and
    the JSON text of what [processRequest] leaves in the handler. *)
Definition expected_view (w : W) (req : http_request) : client_view :=
  let p := URL_Path req in
  if decide (p = "*") then ViewBadRequest
  else if decide (Method req <> "CONNECT" /\ cleanPath p <> p) then ViewRedirect (cleanPath p)
  else if String.prefix "/" p
  then ViewResponse (Some 200) (response_payload (handler (fst (processRequest req (initial_state w)))))
  else ViewNotFound.

Context `{!ResponseWriterLaws W}.

(** The program's response on a fresh, empty connection. *)
Lemma handleAllRoutes_fn_view (w : W) req :
  rw_sent_status w = None -> rw_sent_body w = "" ->
  view_of (Served (handleAllRoutes_fn w req)) =
    ViewResponse (Some 200) (response_payload (handler (fst (processRequest req (initial_state w))))).
Proof.
  intros Hs Hb. unfold handleAllRoutes_fn. simpl. rewrite handleAllRoutes_writer. cbv zeta.
  destruct (rw_header_set2_sent HTTP_HDR_STATUS_CODE
    (intstring (response_code (handler (fst (processRequest req (initial_state w))))))
    HTTP_HDR_CONTENT_TYPE VALUE_CONTENT_TYPE_JSON
    (rw_write (response_payload (handler (fst (processRequest req (initial_state w))))) w))
    as (-> & _ & ->).
  by rewrite rw_write_status, rw_write_body, Hs, Hb, string_app_nil_l.
Qed.

(** C30. The service meets its client contract: on a fresh
    connection, every request to the mux [main] registers is answered
    as [expected_view] says: 400 for "*", a 301 to the cleaned path,
    404 for a path that is not rooted, and otherwise status 200 with
    the marshalled body the handler stored, whatever code that body
    carries. *)
Theorem service_refines (w : W) req :
  rw_sent_status w = None -> rw_sent_body w = "" ->
  view_of (serve_request root_mux w req) = expected_view w req.
Proof.
  intros Hs Hb. unfold serve_request, expected_view. rewrite mux_match_root.
  case_decide; [done|]. case_decide; [done|].
  destruct (String.prefix "/" (URL_Path req)); [|done].
  by apply handleAllRoutes_fn_view.
Qed.
End Service.
