(* ===== verification/Connection.v ===== *)
(** * The connection discipline

    Spec section 5 promises "scoped acquisition, guaranteed release on
    every exit path, including the abort path".  In the trace of a
    request this reads: either the database is never touched (the path
    was rejected, or [sql.Open] failed and its nil handle was never
    used for a statement), or the connection is opened first, closed
    last, exactly once each, and only statements are run in between. *)

From S2P Require Import Prelude GoStrings GoJson HttpWriter SqlDb WebHandler Tables Compose Executor Handler Effects Routing.

Local Open Scope Z_scope.
Local Open Scope go_scope.

Section Connection.
Context {W : Type} `{!ResponseWriter W} `{!SqlDb} `{!MapIter}.

(** Spec section 5 as a relation between the trace before a request
    and the trace after it. *)
Definition connection_scoped (before after : list db_event) : Prop :=
  after = before \/ exists qs, after = before ++ [EvOpen] ++ map EvQuery qs ++ [EvClose].

(** The trace grows by statements only. *)
Definition only_statements (s s' : ReqState W) : Prop :=
  exists qs, db_trace s' = db_trace s ++ map EvQuery qs.

#[local] Instance only_statements_preorder : PreOrder only_statements.
Proof.
  split.
  - intros s. exists []. by rewrite app_nil_r.
  - intros s1 s2 s3 [qs1 H1] [qs2 H2]. exists (qs1 ++ qs2).
    by rewrite H2, H1, map_app, app_assoc.
Qed.

Lemma dispatch_only_statements path req t (st : ReqState W) :
  only_statements st (fst (dispatch path req t st)).
Proof.
  apply (dispatch_pres only_statements); intros; [exists []; by rewrite app_nil_r..|].
  by exists [q].
Qed.

Lemma with_connection_trace m (st : ReqState W) :
  db_trace (fst (with_connection m st)) =
    db_trace (fst (m (log_event EvOpen st))) ++ [EvClose].
Proof. unfold with_connection. go_unfold. simpl. by destruct (m _). Qed.

(** A failed [sql.Open] leaves the trace as it was. *)
Lemma processRequest_open_failed_trace req p0 t rest e (st : ReqState W) :
  sql_open "mysql" DB_AUTH = Some e -> Split "/" (URL_Path req) = p0 :: t :: rest ->
  db_trace (fst (processRequest req st)) = db_trace st.
Proof.
  intros Hopen Hsplit. unfold processRequest. rewrite Hsplit. unfold go_bind at 1.
  rewrite mandatoryPathLength_ok by (simpl; lia).
  unfold parseRequest, sql_Open. rewrite Hopen. done.
Qed.

(** C6. Every request either leaves the database untouched, or opens
    one connection, runs statements only, and closes that connection
    last, on every exit path, panics included. *)
Theorem processRequest_connection req (st : ReqState W) :
  connection_scoped (db_trace st) (db_trace (fst (processRequest req st))).
Proof.
  unfold connection_scoped.
  destruct (Split "/" (URL_Path req)) as [|p0 [|t rest]] eqn:Hsplit.
  - by destruct (Split_not_nil "/" (URL_Path req)).
  - left. unfold processRequest. rewrite Hsplit. unfold go_bind at 1.
    by rewrite mandatoryPathLength_short by (simpl; lia).
  - destruct (sql_open "mysql" DB_AUTH) as [e|] eqn:Hopen.
    + left. by apply (processRequest_open_failed_trace req p0 t rest e).
    + right. rewrite (processRequest_opened p0 t rest req Hopen Hsplit st).
      rewrite with_connection_trace.
      destruct (dispatch_only_statements (p0 :: t :: rest) req t (log_event EvOpen st))
        as [qs Hqs].
      exists qs. rewrite Hqs. simpl. by rewrite <- !app_assoc.
Qed.
(** On a table outside the mapping, the switch sends no statement but
    for POST: GET and PUT and DELETE stop at the key lookup, or before
    it on a short path, and other methods are refused. *)
Lemma dispatch_unmapped_trace p0 t rest req (s : ReqState W) :
  tableIdColumn t = None -> Method req <> "POST" ->
  db_trace (fst (dispatch (p0 :: t :: rest) req t s)) = db_trace s.
Proof.
  intros Ht Hp.
  destruct (decide (Method req ∈ ["GET"; "POST"; "PUT"; "DELETE"]%string)) as [Hm|Hm];
    [|by rewrite (dispatch_other _ _ _ Hm s)].
  apply list_elem_of_In in Hm. destruct Hm as [Hm|[Hm|[Hm|[Hm|[]]]]]; symmetry in Hm; [|done| |].
  - destruct rest as [|id more]; [by rewrite (dispatch_get_short p0 t req Hm s)|].
    destruct (handlers_unknown (W:=W) t id (Body req) Ht) as (Hg & _ & _).
    by rewrite (dispatch_get p0 t id more req Hm s), Hg.
  - destruct rest as [|id more]; [by rewrite (dispatch_put_delete_short p0 t req (or_introl Hm) s)|].
    destruct (handlers_unknown (W:=W) t id (Body req) Ht) as (_ & Hu & _).
    by rewrite (dispatch_put p0 t id more req Hm s), Hu.
  - destruct rest as [|id more]; [by rewrite (dispatch_put_delete_short p0 t req (or_intror Hm) s)|].
    destruct (handlers_unknown (W:=W) t id (Body req) Ht) as (_ & _ & Hd).
    by rewrite (dispatch_delete p0 t id more req Hm s), Hd.
Qed.

(** C17. On a table outside the key mapping no request but a POST
    sends a statement to the database: whatever the method, the rest
    of the path and the body, the trace is unchanged (the open failed)
    or gains only the opening and the closing of the connection.  POST,
    which never looks the table up, is the one way to run a statement
    on an unmapped table. *)
Theorem processRequest_unmapped_no_statement req p0 t rest (st : ReqState W) :
  Split "/" (URL_Path req) = p0 :: t :: rest -> tableIdColumn t = None -> Method req <> "POST" ->
  db_trace (fst (processRequest req st)) = db_trace st \/
  db_trace (fst (processRequest req st)) = db_trace st ++ [EvOpen; EvClose].
Proof.
  intros Hsplit Ht Hp. destruct (sql_open "mysql" DB_AUTH) as [e|] eqn:Hopen.
  - left. by apply (processRequest_open_failed_trace req p0 t rest e).
  - right. rewrite (processRequest_opened p0 t rest req Hopen Hsplit st), with_connection_trace.
    rewrite dispatch_unmapped_trace by done. simpl. by rewrite <- app_assoc.
Qed.
End Connection.
