(* ===== verification/Witnesses.v ===== *)
(** * Concrete runs and witnesses

    The theorems applied to concrete requests against the net/http
    writer model ([net_http], a fresh [fresh_response]), the employees
    database ([EmployeesDb]) and the map enumeration order
    ([map_iter_enum]); plus whole-request runs that show the observable
    behaviour of the program on the requests of the spec's section 8. *)

From S2P Require Import Prelude GoStrings GoJson Utf8 HttpWriter SqlDb WebHandler Tables Compose Executor Handler Effects Response Invariant Routing Spec Connection Server Main Service.

Local Open Scope Z_scope.
Local Open Scope go_scope.

Definition mk_request (m p : string) (b : request_body) : http_request :=
  {| Method := m; URL_Path := p; Body := b |}.

Definition no_body : request_body := Err "EOF".

Definition create_body : request_body :=
  Ok {| RequestType := "create"; Query := [];
        Create := <["emp_no":="999"]> (<["first_name":="Ada"]> ∅); Update := ∅ |}.

Definition update_body : request_body :=
  Ok {| RequestType := "update"; Query := []; Create := ∅;
        Update := <["title":="Engineer"]> ∅ |}.

Definition req_get : http_request := mk_request "GET" "/employees/10001" no_body.
Definition req_delete : http_request := mk_request "DELETE" "/departments/d005" no_body.

(** The observable response of a request on a fresh writer. *)
Definition run_request (req : http_request) : ReqState HttpResponse :=
  fst (handleAllRoutes fresh_response req).

(** ** Whole requests *)

(** Spec section 8: GET /employees/10001 composes exactly the SELECT,
    and is answered 500 because its result has six columns. *)
Example get_employees_runs :
  db_trace (run_request req_get) =
    [EvOpen; EvQuery "select * from employees where emp_no=10001;";
     EvQuery (columnsQuery "employees"); EvClose] /\
  code (handler (run_request req_get)) = 500 /\
  wroteHeader (writer (handler (run_request req_get))) = Some 200.
Proof. vm_compute. auto. Qed.

(** Spec section 8: DELETE /departments/d005 composes exactly the DELETE. *)
Example delete_departments_runs :
  db_trace (run_request req_delete) =
    [EvOpen; EvQuery "delete from departments where dept_no='d005';";
     EvQuery (columnsQuery "departments"); EvClose].
Proof. vm_compute. reflexivity. Qed.

(** Spec section 8: the INSERT keeps its trailing separators. *)
Example post_create_runs :
  db_trace (run_request (mk_request "POST" "/employees" create_body)) =
    [EvOpen; EvQuery "insert into employees(emp_no,first_name,) values (999,Ada,);"; EvClose].
Proof. vm_compute. reflexivity. Qed.

(** A short PUT: the client receives [null]. *)
Example put_short_runs :
  sentBody (writer (handler (run_request (mk_request "PUT" "/departments" update_body)))) = "null".
Proof. vm_compute. reflexivity. Qed.

(** A database whose driver refuses the data source name. *)
Definition failing_db : SqlDb := {|
  sql_open _ _ := Some "invalid DSN: missing the slash separating the database name";
  sql_query := employees_query
|}.

(** When [sql.Open] fails the client still gets the 500 error body. *)
Example open_failed_runs :
  code (handler (fst (@handleAllRoutes HttpResponse _ failing_db _ fresh_response req_get))) = 500 /\
  sentBody (writer (handler (fst (@handleAllRoutes HttpResponse _ failing_db _ fresh_response req_get)))) =
    "{" +:+ dquote +:+ "Message" +:+ dquote +:+ ":" +:+ dquote +:+ "Failed to open DB connection" +:+
    dquote +:+ "}".
Proof. vm_compute. auto. Qed.

(** ** Witnesses *)

Lemma fill_body_total_witness :
  (0 + length ["dept_no"; "dept_name"] <= length ["d005"; "Research"; "x"])%nat /\
  fill_body (W:=HttpResponse) ["dept_no"; "dept_name"] ["d005"; "Research"; "x"] 0 ∅
    (initial_state fresh_response) =
    (initial_state fresh_response,
     Returned (copied ∅ ["dept_no"; "dept_name"] ["d005"; "Research"; "x"] 0)).
Proof. split; [simpl; lia|]. apply fill_body_total. simpl. lia. Defined.

Lemma fill_body_short_witness :
  (0 <= length ["d005"] < 0 + length ["dept_no"; "dept_name"])%nat /\
  fill_body (W:=HttpResponse) ["dept_no"; "dept_name"] ["d005"] 0 ∅ (initial_state fresh_response) =
    (initial_state fresh_response, Panicking (PanicIndex 1 1)).
Proof. split; [simpl; lia|]. apply (fill_body_short _ ["d005"]). simpl. lia. Defined.

Lemma processRequest_wf_witness :
  handler_wf (handler (initial_state fresh_response)) = true /\
  handler_wf (handler (fst (processRequest (W:=HttpResponse) req_get (initial_state fresh_response)))) = true.
Proof. split; [reflexivity|]. apply processRequest_wf. reflexivity. Defined.

Lemma processRequest_open_failed_witness :
  @sql_open failing_db "mysql" DB_AUTH =
    Some "invalid DSN: missing the slash separating the database name" /\
  Split "/" (URL_Path req_get) = [""; "employees"; "10001"]%string /\
  @processRequest HttpResponse failing_db _ req_get (initial_state fresh_response) =
    (fst (aborted 500 "Failed to open DB connection" (initial_state fresh_response)),
     Panicking PanicNilDeref).
Proof.
  split; [reflexivity|]. split; [reflexivity|].
  apply (@processRequest_open_failed HttpResponse failing_db _ req_get "" "employees" ["10001"]
           "invalid DSN: missing the slash separating the database name"); reflexivity.
Defined.



Lemma handleAllRoutes_observable_witness :
  rw_sent_status fresh_response = None /\
  rw_sent_status (writer (handler (fst (handleAllRoutes fresh_response req_get)))) = Some 200 /\
  (rw_sent_header (writer (handler (fst (handleAllRoutes fresh_response req_get))))
     ≫= lookup HTTP_HDR_STATUS_CODE) = rw_header fresh_response !! HTTP_HDR_STATUS_CODE /\
  rw_sent_body (writer (handler (fst (handleAllRoutes fresh_response req_get)))) =
    rw_sent_body fresh_response +:+
      response_payload (handler (fst (processRequest req_get (initial_state fresh_response)))).
Proof. split; [reflexivity|]. apply handleAllRoutes_observable. reflexivity. Defined.

Lemma processRequest_path_too_short_witness :
  count_sep "/" (URL_Path (mk_request "GET" "employees" no_body)) = 0%nat /\
  processRequest (W:=HttpResponse) (mk_request "GET" "employees" no_body) (initial_state fresh_response) =
    (set_handler (set_code_body 400 (err_body "Requested path is too short"))
       (initial_state fresh_response),
     Panicking (PanicValue "Requested path is too short")).
Proof. split; [reflexivity|]. apply processRequest_path_too_short. reflexivity. Defined.

Lemma processRequest_get_witness :
  Split "/" (URL_Path req_get) = [""; "employees"; "10001"] /\
  processRequest (W:=HttpResponse) req_get ≃
    with_connection (executeQuery "select * from employees where emp_no=10001;" "employees").
Proof.
  split; [reflexivity|].
  apply (processRequest_get req_get "" "employees" "10001" [] "emp_no"); reflexivity.
Defined.

Lemma processRequest_delete_witness :
  Split "/" (URL_Path req_delete) = [""; "departments"; "d005"] /\
  processRequest (W:=HttpResponse) req_delete ≃
    with_connection (executeQuery "delete from departments where dept_no='d005';" "departments").
Proof.
  split; [reflexivity|].
  apply (processRequest_delete req_delete "" "departments" "d005" [] "dept_no"); reflexivity.
Defined.

Lemma processRequest_unknown_table_witness :
  tableIdColumn "nosuch" = None /\
  processRequest (W:=HttpResponse) (mk_request "PUT" "/nosuch/1" update_body) ≃
    with_connection (fireErrResponse 400 "Unknown table: nosuch").
Proof.
  split; [reflexivity|].
  apply (processRequest_unknown_table _ "" "nosuch" "1" []); [reflexivity|set_solver|reflexivity..].
Defined.

Lemma processRequest_put_delete_short_witness :
  Split "/" (URL_Path (mk_request "DELETE" "/departments" no_body)) = [""; "departments"] /\
  processRequest (W:=HttpResponse) (mk_request "DELETE" "/departments" no_body) ≃
    with_connection (go_throw (PanicIndex 2 2)).
Proof.
  split; [reflexivity|].
  apply (processRequest_put_delete_short _ "" "departments"); [reflexivity|right; reflexivity|reflexivity].
Defined.

Lemma processRequest_post_witness :
  Split "/" (URL_Path (mk_request "POST" "/nosuch" create_body)) = [""; "nosuch"] /\
  processRequest (W:=HttpResponse) (mk_request "POST" "/nosuch" create_body) ≃
    with_connection (post_action "nosuch"
      {| RequestType := "create"; Query := [];
         Create := <["emp_no":="999"]> (<["first_name":="Ada"]> ∅); Update := ∅ |}).
Proof.
  split; [reflexivity|].
  apply (processRequest_post (mk_request "POST" "/nosuch" create_body) "" "nosuch" []); reflexivity.
Defined.

Lemma processRequest_other_method_witness :
  (Method (mk_request "PATCH" "/employees/1" no_body) ∉ ["GET"; "POST"; "PUT"; "DELETE"]%string) /\
  processRequest (W:=HttpResponse) (mk_request "PATCH" "/employees/1" no_body) ≃
    with_connection (fireErrResponse 400 "Unsupported HTTP method: PATCH").
Proof.
  split; [set_solver|].
  apply (processRequest_other_method (mk_request "PATCH" "/employees/1" no_body) "" "employees" ["1"]); [reflexivity|set_solver|reflexivity].
Defined.

Lemma processRequest_put_witness :
  tableIdColumn "titles" = Some "emp_no" /\
  processRequest (W:=HttpResponse) (mk_request "PUT" "/titles/10001" update_body) ≃
    with_connection (executeQuery "update titles set (title='Engineer'), where emp_no=10001;" "titles").
Proof.
  split; [reflexivity|].
  etransitivity;
    [apply (processRequest_put (mk_request "PUT" "/titles/10001" update_body) "" "titles" "10001" [] "emp_no");
     reflexivity|].
  intros s. reflexivity.
Defined.

Lemma executeQuery_success_witness :
  executeQuery (W:=HttpResponse) "SELECT `emp_no` FROM employees;" "employees"
    (initial_state fresh_response) =
    ({| handler := set_code_body 200 (GoStringMap {["COLUMN_NAME" := "emp_no"]})
                     (handler (initial_state fresh_response));
        db_trace := [EvQuery "SELECT `emp_no` FROM employees;";
                     EvQuery (columnsQuery "employees")] |}, Returned tt) /\
  exists c, sql_query "SELECT `emp_no` FROM employees;" = QueryOk (ColsOk [c]) /\
    handler (fst (executeQuery (W:=HttpResponse) "SELECT `emp_no` FROM employees;" "employees"
                    (initial_state fresh_response))) =
      set_code_body 200 (GoStringMap {["COLUMN_NAME" := c]}) (handler (initial_state fresh_response)) /\
    db_trace (fst (executeQuery (W:=HttpResponse) "SELECT `emp_no` FROM employees;" "employees"
                    (initial_state fresh_response))) =
      db_trace (initial_state fresh_response) ++
        [EvQuery "SELECT `emp_no` FROM employees;"; EvQuery (columnsQuery "employees")].
Proof.
  split; [vm_compute; reflexivity|].
  apply (executeQuery_success _ _ _ _). vm_compute. reflexivity.
Defined.

Lemma executeQuery_column_mismatch_witness :
  sql_query "select * from employees where emp_no=10001;" =
    QueryOk (ColsOk ["emp_no"; "birth_date"; "first_name"; "last_name"; "gender"; "hire_date"]) /\
  executeQuery (W:=HttpResponse) "select * from employees where emp_no=10001;" "employees"
    (initial_state fresh_response) =
    (set_handler (set_code_body 500 (err_body (mismatch_msg
        ["emp_no"; "birth_date"; "first_name"; "last_name"; "gender"; "hire_date"] ["COLUMN_NAME"])))
       (log_event (EvQuery (columnsQuery "employees"))
          (log_event (EvQuery "select * from employees where emp_no=10001;") (initial_state fresh_response))),
     Panicking (PanicValue (mismatch_msg
        ["emp_no"; "birth_date"; "first_name"; "last_name"; "gender"; "hire_date"] ["COLUMN_NAME"]))).
Proof.
  split; [reflexivity|].
  apply (executeQuery_column_mismatch _ _ _ ["COLUMN_NAME"]); [reflexivity|simpl; lia|reflexivity].
Defined.

Lemma generateQueryItems_aligned_witness :
  map_Forall (fun k v => count_sep ","%char k = 0%nat /\ count_sep ","%char v = 0%nat)
    (<["emp_no":="999"]> (<["first_name":="Ada"]> (∅ : gmap string string))) /\
  exists kvs, kvs ≡ₚ map_to_list (<["emp_no":="999"]> (<["first_name":="Ada"]> (∅ : gmap string string))) /\
    Split ","%char (generateQueryItems (<["emp_no":="999"]> (<["first_name":="Ada"]> ∅))).1 =
      map fst kvs ++ [""%string] /\
    Split ","%char (generateQueryItems (<["emp_no":="999"]> (<["first_name":="Ada"]> ∅))).2 =
      map snd kvs ++ [""%string].
Proof.
  assert (Hm : map_Forall (fun k v => count_sep ","%char k = 0%nat /\ count_sep ","%char v = 0%nat)
    (<["emp_no":="999"]> (<["first_name":="Ada"]> (∅ : gmap string string)))).
  { apply map_Forall_to_list. vm_compute. repeat constructor. }
  split; [exact Hm|]. apply generateQueryItems_aligned. exact Hm.
Defined.

(** A POST "query" joins its comparisons with commas, not AND, and
    keeps a trailing comma. *)
Example where_clause_commas :
  generateComparisons [{| ObjectName := "emp_no"; Comparison := ">"; Value := "10" |};
                       {| ObjectName := "gender"; Comparison := "="; Value := "F" |}] =
    "(emp_no>'10'),(gender='F'),".
Proof. reflexivity. Qed.

Lemma sendResponse_status_header_witness :
  rw_header (writer (handler (fst (sendResponse (initial_state fresh_response))))) !! HTTP_HDR_STATUS_CODE =
    Some (intstring (response_code (handler (initial_state fresh_response)))) /\
  intstring (response_code (handler (initial_state fresh_response))) <>
    pretty (response_code (handler (initial_state fresh_response))).
Proof. apply sendResponse_status_header. Defined.


(** ** Through the mux *)

Lemma served_path_long_enough_witness :
  serve_request root_mux fresh_response req_get = Served (handleAllRoutes_fn fresh_response req_get) /\
  (handleAllRoutes_fn fresh_response req_get = handleAllRoutes_fn fresh_response req_get /\
   mandatoryPathLength (Split "/" (URL_Path req_get)) 1 (initial_state fresh_response) =
     (initial_state fresh_response, Returned tt)).
Proof.
  split; [vm_compute; reflexivity|].
  apply served_path_long_enough. vm_compute. reflexivity.
Defined.

(** A doubled slash never reaches the program: the mux redirects it. *)
Example double_slash_redirected :
  serve_request root_mux fresh_response (mk_request "GET" "/employees//10001" no_body) =
    Redirect "/employees/10001".
Proof. vm_compute. reflexivity. Qed.

(** A trailing slash is kept by [cleanPath], so the GET reaches the
    program with an empty id. *)
Example trailing_slash_served :
  cleanPath "/employees/" = "/employees/" /\
  Split "/" "/employees/" = [""; "employees"; ""].
Proof. vm_compute. auto. Qed.

(** POST / is served, passes the first length check and sends an
    INSERT into the empty table name to the database. *)
Example post_root_reaches_database :
  (exists w', serve_request root_mux fresh_response (mk_request "POST" "/" create_body) = Served w') /\
  db_trace (run_request (mk_request "POST" "/" create_body)) =
    [EvOpen; EvQuery "insert into (emp_no,first_name,) values (999,Ada,);"; EvClose].
Proof. split; [eexists; vm_compute; reflexivity|vm_compute; reflexivity]. Qed.

Lemma service_refines_witness :
  rw_sent_status fresh_response = None /\ rw_sent_body fresh_response = "" /\
  view_of (serve_request root_mux fresh_response req_get) = expected_view fresh_response req_get.
Proof. split; [reflexivity|]. split; [reflexivity|]. apply service_refines; reflexivity. Defined.

(** The id of a DELETE is spliced into the statement unescaped: the
    (percent-decoded) path /employees/x' or '1'='1 deletes every row. *)
Example delete_injection_runs :
  db_trace (run_request (mk_request "DELETE" "/employees/x' or '1'='1" no_body)) =
    [EvOpen; EvQuery "delete from employees where emp_no='x' or '1'='1';";
     EvQuery (columnsQuery "employees"); EvClose].
Proof. vm_compute. reflexivity. Qed.

Lemma processRequest_path_determined_witness :
  Method req_get <> "POST" /\
  processRequest (W:=HttpResponse) req_get ≃ processRequest (mk_request "GET" "/employees/10001" create_body).
Proof.
  split; [vm_compute; discriminate|].
  apply processRequest_path_determined; [reflexivity|reflexivity|vm_compute; discriminate..].
Defined.

Lemma processRequest_unmapped_no_statement_witness :
  Split "/" "/nosuch/1" = [""; "nosuch"; "1"]%string /\ tableIdColumn "nosuch" = None /\
  (db_trace (fst (processRequest (mk_request "GET" "/nosuch/1" no_body) (initial_state fresh_response))) =
     db_trace (initial_state fresh_response) \/
   db_trace (fst (processRequest (mk_request "GET" "/nosuch/1" no_body) (initial_state fresh_response))) =
     db_trace (initial_state fresh_response) ++ [EvOpen; EvClose]).
Proof.
  split; [reflexivity|]. split; [reflexivity|].
  apply (processRequest_unmapped_no_statement (mk_request "GET" "/nosuch/1" no_body) "" "nosuch" ["1"]);
    [reflexivity|reflexivity|vm_compute; discriminate].
Defined.
